(** * The exam session controller of the driving-test application

    A shallow embedding of [ExamInterface.tsx] (the exam-taking component:
    question loading, answer capture, navigation, the mock-test countdown,
    scoring and the pass flag) together with the properties its
    specification states about it.

    Conventions of the embedding.
    - Identifiers are JavaScript strings; the chosen-answer record
      [selectedAnswers] (a JS object spread-copied on every selection) is a
      finite map from strings to strings.
    - JavaScript numbers are IEEE 754 binary64 values; the score expression
      [Math.round((correctCount / questions.length) * 100)] is evaluated with
      the binary64 division and multiplication of [SpecFloat].
    - Calls to the backend and to the parent component are recorded in a log
      of effects, in the order the handler issues them.
    - A handler runs to completion before the next event is dispatched.  The
      one asynchronous window that is kept explicit is the awaited update of
      the exam row inside [handleSubmitExam]: until it settles the component
      stays mounted and keeps receiving clicks and timer ticks.
    - A handler reads the component state of the moment it is called.  (The
      interval callback of the countdown is created anew at every tick, so
      what it reads is at most one tick old; the properties below hold of
      every state a session goes through.)
    - Question and answer identifiers are the primary keys of their tables;
      none of them is the name of a member of [Object.prototype]. *)

From Stdlib Require Import ZArith Lia SpecFloat DecimalString Ascii.
From stdpp Require Import gmap strings list fin_maps.

Local Open Scope string_scope.
Local Open Scope list_scope.

(** ** JavaScript numbers *)

Module JS.

Definition prec : Z := 53.
Definition emax : Z := 1024.

Definition number : Type := spec_float.

(** The number denoted by an integer literal or an array length. *)
Definition of_Z (z : Z) : number :=
  match z with
  | Z0 => S754_zero false
  | Zpos _ => binary_normalize prec emax z 0 false
  | Zneg _ => binary_normalize prec emax z 0 true
  end.

Definition of_nat (n : nat) : number := of_Z (Z.of_nat n).

Definition div (x y : number) : number := SFdiv prec emax x y.
Definition mul (x y : number) : number := SFmul prec emax x y.

(** [x >= y]; false as soon as one side is NaN. *)
Definition geb (x y : number) : bool := SFleb y x.

(** [Math.round]: the closest integer, ties towards plus infinity; NaN,
    the infinities and the zeros are returned unchanged. *)
Definition Math_round (x : number) : number :=
  match x with
  | S754_finite s m e =>
      if (0 <=? e)%Z then x
      else
        let v := if s then Zneg m else Zpos m in
        let k := ((2 * v + 2 ^ (- e)) / 2 ^ (1 - e))%Z in
        if (k =? 0)%Z then S754_zero s else of_Z k
  | _ => x
  end.

(** Boolean equality of representations, used to check tables by
    computation. *)
Definition eqb (x y : number) : bool :=
  match x, y with
  | S754_zero s, S754_zero s' => Bool.eqb s s'
  | S754_infinity s, S754_infinity s' => Bool.eqb s s'
  | S754_nan, S754_nan => true
  | S754_finite s m e, S754_finite s' m' e' =>
      Bool.eqb s s' && Pos.eqb m m' && Z.eqb e e'
  | _, _ => false
  end.

End JS.

(** ** Data model (lib/supabase.ts) *)

Inductive ExamMode := practice | mock_test | learning.

#[global] Instance ExamMode_eq_dec : EqDecision ExamMode.
Proof. solve_decision. Defined.

(** The fields of [Answer] and [Question] the controller reads. *)
Record Answer := mkAnswer {
  answer_id : string;
  is_correct : bool }.

Record Question := mkQuestion {
  question_id : string;
  answers : list Answer }.

(** A question row as delivered by the data source: [answers] is optional
    there ([answers?: Answer[]]). *)
Record QuestionRow := mkRow {
  row_id : string;
  row_answers : option (list Answer) }.

(** ** The scorer (the body of [handleSubmitExam]) *)

(** [question.answers.find(a => a.is_correct)] *)
Definition correctAnswer (q : Question) : option Answer :=
  List.find is_correct (answers q).

(** [questions.find(q => q.id === questionId)] *)
Definition findQuestion (questions : list Question) (questionId : string)
  : option Question :=
  List.find (fun q => bool_decide (question_id q = questionId)) questions.

(** The test of the [forEach] body for the key [questionId] whose value is
    [selectedAnswerId]: [selectedAnswerId === correctAnswer?.id], where the
    right-hand side is [undefined] when the question or its flagged answer
    is missing. *)
Definition isCounted (questions : list Question) (kv : string * string) : bool :=
  let question := findQuestion questions kv.1 in
  let correct := question ≫= correctAnswer in
  bool_decide (Some kv.2 = answer_id <$> correct).

(** [Object.keys(selectedAnswers).forEach(...)] with its counter. *)
Definition correctCount (questions : list Question)
  (selectedAnswers : gmap string string) : nat :=
  fold_left (fun count kv => if isCounted questions kv then S count else count)
    (map_to_list selectedAnswers) 0%nat.

(** [Math.round((correctCount / questions.length) * 100)] *)
Definition percentage (count total : nat) : JS.number :=
  JS.Math_round (JS.mul (JS.div (JS.of_nat count) (JS.of_nat total)) (JS.of_Z 100)).

Definition score (questions : list Question)
  (selectedAnswers : gmap string string) : JS.number :=
  percentage (correctCount questions selectedAnswers) (length questions).

(** [score >= 70] *)
Definition passed (score : JS.number) : bool := JS.geb score (JS.of_Z 70).

(** The reference the source is compared with, in the words of the
    specification: [round (a / b)], the exact quotient rounded to the nearest
    integer, halves upwards. *)
Definition round_div (a b : Z) : Z := ((2 * a + b) / (2 * b))%Z.

(** Also from the specification: [correctCount] as the number of
    questions of the sequence whose chosen-answer identifier equals the
    identifier of the question's correctness-flagged answer. *)
Definition answeredCorrectly (selectedAnswers : gmap string string)
  (q : Question) : bool :=
  match selectedAnswers !! question_id q, correctAnswer q with
  | Some chosen, Some a => bool_decide (chosen = answer_id a)
  | _, _ => false
  end.

Definition correctQuestions (questions : list Question)
  (selectedAnswers : gmap string string) : nat :=
  length (List.filter (answeredCorrectly selectedAnswers) questions).

(** ** Component state ([useState] cells of [ExamInterface]) *)

Record state := mkState {
  questions : list Question;
  currentQuestionIndex : nat;
  selectedAnswers : gmap string string;
  timeLeft : nat;
  examId : string;
  loading : bool;
  showExplanation : bool }.

(** Calls leaving the component: inserts into [exam_responses], the update
    of the [exams] row, toasts, and the [onExamComplete] callback. *)
Inductive effect :=
| InsertResponse (exam_id question_id chosen_answer_id : string) (correct : bool)
| UpdateExam (exam_id : string) (score : JS.number) (passed : bool)
| ToastSuccess (score : JS.number)
| ToastError (message : string)
| OnExamComplete (exam_id : string).

Definition isInsert (e : effect) : bool :=
  match e with InsertResponse _ _ _ _ => true | _ => false end.

Definition isInsertFor (questionId : string) (e : effect) : bool :=
  match e with
  | InsertResponse _ q _ _ => bool_decide (q = questionId)
  | _ => false
  end.

Definition isUpdate (e : effect) : bool :=
  match e with UpdateExam _ _ _ => true | _ => false end.

Definition isComplete (e : effect) : bool :=
  match e with OnExamComplete _ => true | _ => false end.

(** [mode === 'mock_test' ? 20 : 10], the limit of the question query. *)
Definition questionLimit (mode : ExamMode) : nat :=
  if decide (mode = mock_test) then 20%nat else 10%nat.

(** [useState] initial values. *)
Definition initialState (mode : ExamMode) : state :=
  {| questions := [];
     currentQuestionIndex := 0;
     selectedAnswers := ∅;
     timeLeft := if decide (mode = mock_test) then (20 * 60)%nat else 0%nat;
     examId := "";
     loading := true;
     showExplanation := false |}.

(** ** The question set loader ([fetchQuestions]) *)

(** Where the questions come from: the bundled sample list when no backend
    is configured, otherwise the answer of the [questions] query ([None]
    when the query reports an error). *)
Inductive DataSource :=
| MockData (mockQuestions : list QuestionRow)
| Backend (table : option (list QuestionRow)).

(** The test [!supabaseUrl || supabaseUrl.includes('your_supabase')] that
    every operation repeats: true exactly when the sample list is used. *)
Definition demoMode (src : DataSource) : bool :=
  match src with MockData _ => true | Backend _ => false end.

(** [sort(() => Math.random() - 0.5)] reorders the array it is applied to;
    which order comes out is left to the two functions of a shuffler, the
    answer order being chosen per question. *)
Record Shuffler := mkShuffler {
  shuffleQuestions : list Question -> list Question;
  shuffleAnswers : string -> list Answer -> list Answer;
  shuffleQuestions_perm : forall l, shuffleQuestions l ≡ₚ l;
  shuffleAnswers_perm : forall k l, shuffleAnswers k l ≡ₚ l }.

(** [{...q, answers: q.answers?.sort(...) || []}] *)
Definition withShuffledAnswers (sh : Shuffler) (q : QuestionRow) : Question :=
  {| question_id := row_id q;
     answers := shuffleAnswers sh (row_id q) (default [] (row_answers q)) |}.

Definition shuffled (sh : Shuffler) (rows : list QuestionRow) : list Question :=
  shuffleQuestions sh (withShuffledAnswers sh <$> rows).

Definition fetchQuestions (mode : ExamMode) (sh : Shuffler) (src : DataSource)
  (st : state) : state * list effect :=
  match src with
  | MockData mockQuestions =>
      let questionsToUse :=
        take (Nat.min (questionLimit mode) (length mockQuestions)) mockQuestions in
      ({| questions := shuffled sh questionsToUse;
          currentQuestionIndex := currentQuestionIndex st;
          selectedAnswers := selectedAnswers st;
          timeLeft := timeLeft st;
          examId := examId st;
          loading := false;
          showExplanation := showExplanation st |}, [])
  | Backend (Some table) =>
      let data := take (questionLimit mode) table in
      ({| questions := shuffled sh data;
          currentQuestionIndex := currentQuestionIndex st;
          selectedAnswers := selectedAnswers st;
          timeLeft := timeLeft st;
          examId := examId st;
          loading := false;
          showExplanation := showExplanation st |}, [])
  | Backend None =>
      ({| questions := questions st;
          currentQuestionIndex := currentQuestionIndex st;
          selectedAnswers := selectedAnswers st;
          timeLeft := timeLeft st;
          examId := examId st;
          loading := false;
          showExplanation := showExplanation st |},
       [ToastError "Failed to load questions"])
  end.

(** [createExamSession]: the identifier is the generated mock identifier or
    the one of the inserted row; [None] when the insert failed. *)
Definition createExamSession (newId : option string) (st : state)
  : state * list effect :=
  match newId with
  | Some id =>
      ({| questions := questions st;
          currentQuestionIndex := currentQuestionIndex st;
          selectedAnswers := selectedAnswers st;
          timeLeft := timeLeft st;
          examId := id;
          loading := loading st;
          showExplanation := showExplanation st |}, [])
  | None => (st, [ToastError "Failed to start exam"])
  end.

(** The state once both mount effects have run. *)
Definition mount (mode : ExamMode) (sh : Shuffler) (src : DataSource)
  (newId : option string) : state * list effect :=
  let '(st1, e1) := fetchQuestions mode sh src (initialState mode) in
  let '(st2, e2) := createExamSession newId st1 in
  (st2, e1 ++ e2).

(** ** Handlers *)

(** [questions[currentQuestionIndex]] *)
Definition currentQuestion (st : state) : option Question :=
  questions st !! currentQuestionIndex st.

(** Truthiness of a string: every string but the empty one. *)
Definition truthy (s : string) : bool := bool_decide (s ≠ "").

(** [handleAnswerSelect]; [None] is the [TypeError] of reading [id] off an
    undefined current question. *)
Definition handleAnswerSelect (mode : ExamMode) (answerId : string) (st : state)
  : option state :=
  match currentQuestion st with
  | None => None
  | Some q =>
      Some {| questions := questions st;
              currentQuestionIndex := currentQuestionIndex st;
              selectedAnswers := <[question_id q := answerId]> (selectedAnswers st);
              timeLeft := timeLeft st;
              examId := examId st;
              loading := loading st;
              showExplanation :=
                if decide (mode = learning) then true else showExplanation st |}
  end.

(** [saveResponse]; [demo] is the test
    [!supabaseUrl || supabaseUrl.includes('your_supabase')].  [None] is the
    [TypeError] raised when there is no current question. *)
Definition saveResponse (demo : bool) (st : state) : option (list effect) :=
  match currentQuestion st with
  | None => None
  | Some q =>
      match selectedAnswers st !! question_id q with
      | None => Some []
      | Some selectedAnswerId =>
          if negb (truthy selectedAnswerId) then Some []
          else if demo then Some []
          else
            let isCorrect :=
              bool_decide (Some selectedAnswerId = answer_id <$> correctAnswer q) in
            Some [InsertResponse (examId st) (question_id q) selectedAnswerId isCorrect]
      end
  end.

(** [if (mode !== 'learning') await saveResponse()] *)
Definition saveUnlessLearning (mode : ExamMode) (demo : bool) (st : state)
  : option (list effect) :=
  if decide (mode = learning) then Some [] else saveResponse demo st.

(** How an invocation of [handleSubmitExam] ends: in the [catch] block, by
    calling [onExamComplete] at once (no backend), or suspended on the
    awaited update of the exam row. *)
Inductive submission :=
| NotSubmitted
| Completed
| Awaiting (exam_id : string) (score : JS.number).

Definition handleSubmitExam (mode : ExamMode) (demo : bool) (st : state)
  : list effect * submission :=
  match saveUnlessLearning mode demo st with
  | None => ([ToastError "Failed to submit exam"], NotSubmitted)
  | Some saved =>
      let score := score (questions st) (selectedAnswers st) in
      let passed := passed score in
      if demo then
        (saved ++ [ToastSuccess score; OnExamComplete (examId st)], Completed)
      else
        (saved ++ [UpdateExam (examId st) score passed],
         Awaiting (examId st) score)
  end.

(** [handleNextQuestion].  When [saveResponse] throws, the promise is
    rejected and nothing else happens. *)
Definition handleNextQuestion (mode : ExamMode) (demo : bool) (st : state)
  : state * list effect * submission :=
  match saveUnlessLearning mode demo st with
  | None => (st, [], NotSubmitted)
  | Some saved =>
      if (Z.of_nat (currentQuestionIndex st)
            <? Z.of_nat (length (questions st)) - 1)%Z
      then
        ({| questions := questions st;
            currentQuestionIndex := currentQuestionIndex st + 1;
            selectedAnswers := selectedAnswers st;
            timeLeft := timeLeft st;
            examId := examId st;
            loading := loading st;
            showExplanation := false |}, saved, NotSubmitted)
      else
        let '(effects, sub) := handleSubmitExam mode demo st in
        (st, saved ++ effects, sub)
  end.

Definition handlePreviousQuestion (st : state) : state :=
  if (0 <? currentQuestionIndex st)%nat then
    {| questions := questions st;
       currentQuestionIndex := currentQuestionIndex st - 1;
       selectedAnswers := selectedAnswers st;
       timeLeft := timeLeft st;
       examId := examId st;
       loading := loading st;
       showExplanation := false |}
  else st.

Definition setTimeLeft (t : nat) (st : state) : state :=
  {| questions := questions st;
     currentQuestionIndex := currentQuestionIndex st;
     selectedAnswers := selectedAnswers st;
     timeLeft := t;
     examId := examId st;
     loading := loading st;
     showExplanation := showExplanation st |}.

(** The interval callback: [setTimeLeft(prev => ...)]. *)
Definition timerCallback (mode : ExamMode) (demo : bool) (st : state)
  : state * list effect * submission :=
  if (timeLeft st <=? 1)%nat then
    let '(effects, sub) := handleSubmitExam mode demo st in
    (setTimeLeft 0 st, effects, sub)
  else (setTimeLeft (timeLeft st - 1) st, [], NotSubmitted).

(** ** What the rendered view offers *)

(** [selectedAnswers[currentQuestion?.id]] *)
Definition selectedAnswerId (st : state) : option string :=
  selectedAnswers st !! from_option question_id "undefined" (currentQuestion st).

(** [mode === 'learning' && showExplanation] *)
Definition showResult (mode : ExamMode) (st : state) : bool :=
  bool_decide (mode = learning) && showExplanation st.

(** An answer button exists for every answer of the current question and is
    disabled while the result is shown. *)
Definition answerEnabled (mode : ExamMode) (answerId : string) (st : state) : bool :=
  negb (loading st)
  && existsb (fun a => bool_decide (answer_id a = answerId))
       (from_option answers [] (currentQuestion st))
  && negb (showResult mode st).

(** [disabled={!selectedAnswerId && mode !== 'learning'}] *)
Definition nextEnabled (mode : ExamMode) (st : state) : bool :=
  negb (loading st)
  && negb (negb (from_option truthy false (selectedAnswerId st))
           && bool_decide (mode ≠ learning)).

(** [disabled={currentQuestionIndex === 0}] *)
Definition previousEnabled (st : state) : bool :=
  negb (loading st) && negb (currentQuestionIndex st =? 0)%nat.

(** The interval exists while [mode === 'mock_test' && timeLeft > 0]. *)
Definition timerRunning (mode : ExamMode) (st : state) : bool :=
  bool_decide (mode = mock_test) && (0 <? timeLeft st)%nat.

(** ** Sessions *)

Inductive event :=
| ClickAnswer (answerId : string)
| ClickNext
| ClickPrevious
| ClickExit
| Tick
| Settle (ok : bool).

(** A mounted component, the submissions whose exam-row update has not
    settled yet, and everything issued so far. *)
Record session := mkSession {
  component : state;
  mounted : bool;
  inflight : list (string * JS.number);
  log : list effect }.

Definition start (st : state) : session :=
  {| component := st; mounted := true; inflight := []; log := [] |}.

Definition after (st : state) (effects : list effect) (sub : submission)
  (s : session) : session :=
  {| component := st;
     mounted := match sub with Completed => false | _ => mounted s end;
     inflight := match sub with
                 | Awaiting id sc => inflight s ++ [(id, sc)]
                 | _ => inflight s
                 end;
     log := log s ++ effects |}.

(** The awaited update settles: the oldest suspended submission resumes,
    either with the success toast and [onExamComplete] (the parent then
    replaces the component) or in its [catch] block. *)
Definition settle (ok : bool) (s : session) : session :=
  match inflight s with
  | [] => s
  | (id, sc) :: rest =>
      if ok then
        {| component := component s; mounted := false; inflight := rest;
           log := log s ++ [ToastSuccess sc; OnExamComplete id] |}
      else
        {| component := component s; mounted := mounted s; inflight := rest;
           log := log s ++ [ToastError "Failed to submit exam"] |}
  end.

Definition step (mode : ExamMode) (demo : bool) (s : session) (ev : event)
  : session :=
  match ev with
  | Settle ok => settle ok s
  | _ =>
      if negb (mounted s) then s
      else
        let st := component s in
        match ev with
        | ClickAnswer answerId =>
            if answerEnabled mode answerId st then
              match handleAnswerSelect mode answerId st with
              | Some st' => after st' [] NotSubmitted s
              | None => s
              end
            else s
        | ClickNext =>
            if nextEnabled mode st then
              let '(st', effects, sub) := handleNextQuestion mode demo st in
              after st' effects sub s
            else s
        | ClickPrevious =>
            if previousEnabled st then
              after (handlePreviousQuestion st) [] NotSubmitted s
            else s
        | ClickExit =>
            if negb (loading st) then
              {| component := st; mounted := false; inflight := inflight s;
                 log := log s |}
            else s
        | Tick =>
            if timerRunning mode st then
              let '(st', effects, sub) := timerCallback mode demo st in
              after st' effects sub s
            else s
        | Settle _ => s
        end
  end.

Definition run (mode : ExamMode) (demo : bool) (s : session) (evs : list event)
  : session :=
  fold_left (step mode demo) evs s.

(** Number of log entries of a kind. *)
Definition count (p : effect -> bool) (l : list effect) : nat :=
  length (List.filter p l).

(** ** Predicates and helpers of the statements *)

(** The pointer designates a question, or rests at 0 when there is none. *)
Definition inBounds (st : state) : Prop :=
  currentQuestionIndex st = 0%nat
  \/ (currentQuestionIndex st < length (questions st))%nat.

(** What a finalisation may carry: no score with the flag down, or an
    integer percentage with the flag telling whether it reaches 70. *)
Definition graded (e : effect) : Prop :=
  match e with
  | UpdateExam _ sc p =>
      (sc = S754_nan /\ p = false)
      \/ exists z, sc = JS.of_Z z /\ (0 <= z <= 100)%Z /\ p = (70 <=? z)%Z
  | _ => True
  end.

Definition notInsert (e : effect) : bool := negb (isInsert e).

(** The row [saveResponse] inserts for the question [q] and the chosen
    answer [a]. *)
Definition responseRecord (st : state) (q : Question) (a : string) : effect :=
  InsertResponse (examId st) (question_id q) a
    (bool_decide (Some a = answer_id <$> correctAnswer q)).

(** What [saveResponse] sends for the current question [q]. *)
Definition savedFor (demo : bool) (st : state) (q : Question) : list effect :=
  match selectedAnswers st !! question_id q with
  | Some a => if truthy a && negb demo then [responseRecord st q a] else []
  | None => []
  end.

(** Without a backend: nothing is ever in flight, and [onExamComplete] has
    not been called while the component is mounted. *)
Definition demoInvariant (s : session) : Prop :=
  inflight s = []
  /\ if mounted s then count isComplete (log s) = 0%nat
     else (count isComplete (log s) <= 1)%nat.

(** With a backend and no click: an update has been issued only once the
    countdown stands at zero. *)
Definition timerInvariant (s : session) : Prop :=
  count isUpdate (log s) = 0%nat
  \/ (count isUpdate (log s) = 1%nat /\ timeLeft (component s) = 0%nat).

(** Checking a property of pairs [c <= n <= bound] by running through them. *)
Definition triangle (bound : nat) (p : nat -> nat -> bool) : bool :=
  forallb (fun n => forallb (fun c => p c n) (seq 0 (S n))) (seq 0 (S bound)).

(** ** Sample data for the concrete instances *)

Definition reverseShuffle : Shuffler :=
  {| shuffleQuestions := reverse;
     shuffleAnswers := fun _ => reverse;
     shuffleQuestions_perm := reverse_Permutation;
     shuffleAnswers_perm := fun _ => reverse_Permutation |}.

Definition sampleAnswers (q : string) : list Answer :=
  [mkAnswer (String.append q "-a") false;
   mkAnswer (String.append q "-b") true;
   mkAnswer (String.append q "-c") false].

Definition sampleRow (q : string) : QuestionRow :=
  mkRow q (Some (sampleAnswers q)).

Definition samplePool : list QuestionRow :=
  map sampleRow
    ["q01"; "q02"; "q03"; "q04"; "q05"; "q06"; "q07"; "q08"; "q09"; "q10";
     "q11"; "q12"; "q13"].

(** Answering question after question, each followed by Next. *)
Definition answerAll (choices : list string) : list event :=
  flat_map (fun a => [ClickAnswer a; ClickNext]) choices.

(** A session over the sample pool served by the backend, and one over the
    same pool used as bundled sample list. *)
Definition sampleSession (mode : ExamMode) : session :=
  start (mount mode reverseShuffle (Backend (Some samplePool)) (Some "exam-1")).1.

Definition demoSession (mode : ExamMode) : session :=
  start (mount mode reverseShuffle (MockData samplePool) (Some "mock-exam-1")).1.

(** A mock test over the sample pool in which the learner answers all
    thirteen questions, waits until one second is left, and presses Finish;
    the countdown then expires while the update of the exam row is still
    awaited. *)
Definition lateFinish : list event :=
  answerAll ["q13-b"; "q12-b"; "q11-b"; "q10-b"; "q09-b"; "q08-b"; "q07-b";
             "q06-b"; "q05-b"; "q04-a"; "q03-a"; "q02-a"]
  ++ [ClickAnswer "q01-c"] ++ repeat Tick 1199 ++ [ClickNext].

(** ** Further values of the view and statements about sessions *)

(** [Object.keys(selectedAnswers).length], the counter shown between the
    navigation buttons. *)
Definition answeredCount (st : state) : nat :=
  length (map_to_list (selectedAnswers st)).

(** Every recorded choice is an answer of a question of the session. *)
Definition recordedFromSession (st : state) : Prop :=
  forall k v, selectedAnswers st !! k = Some v ->
    exists q, q ∈ questions st /\ question_id q = k
              /\ v ∈ answer_id <$> answers q.



(** The exam identifier an effect carries, if it carries one. *)
Definition effectExamId (e : effect) : option string :=
  match e with
  | InsertResponse id _ _ _ | UpdateExam id _ _ | OnExamComplete id => Some id
  | ToastSuccess _ | ToastError _ => None
  end.

(** A session without questions in which nothing has been recorded or
    submitted, whose log holds nothing but failed submissions. *)
Definition stuck (s : session) : Prop :=
  questions (component s) = []
  /\ selectedAnswers (component s) = ∅
  /\ inflight s = []
  /\ Forall (fun e => e = ToastError "Failed to submit exam") (log s).

Definition isTick (ev : event) : bool :=
  match ev with Tick => true | _ => false end.

(** Number of ticks among the events. *)
Definition ticks (evs : list event) : nat := length (List.filter isTick evs).

(** ** The clock ([formatTime]) *)

Module Num.

(** [Math.floor]: the greatest integer not above the argument; NaN, the
    infinities and the zeros are returned unchanged. *)
Definition Math_floor (x : JS.number) : JS.number :=
  match x with
  | S754_finite s m e =>
      if (0 <=? e)%Z then x
      else
        let v := if s then Zneg m else Zpos m in
        let k := (v / 2 ^ (- e))%Z in
        if (k =? 0)%Z then S754_zero s else JS.of_Z k
  | _ => x
  end.

(** [x % y]: the remainder of the truncating division, which is exact; it
    takes the sign of the dividend. *)
Definition rem (x y : JS.number) : JS.number :=
  match x, y with
  | S754_nan, _ | _, S754_nan | S754_infinity _, _ | _, S754_zero _ => S754_nan
  | S754_zero _, _ | S754_finite _ _ _, S754_infinity _ => x
  | S754_finite sx mx ex, S754_finite _ my ey =>
      let e0 := Z.min ex ey in
      let r := Z.rem (Zpos mx * 2 ^ (ex - e0)) (Zpos my * 2 ^ (ey - e0)) in
      if (r =? 0)%Z then S754_zero sx
      else binary_normalize JS.prec JS.emax (if sx then - r else r) e0 sx
  end.

(** The integer a number is, when it is one. *)
Definition integerValue (x : JS.number) : option Z :=
  match x with
  | S754_zero _ => Some 0%Z
  | S754_finite s m e =>
      let v := if s then Zneg m else Zpos m in
      if (0 <=? e)%Z then Some (v * 2 ^ e)%Z
      else if (Zpos m mod 2 ^ (- e) =? 0)%Z then Some (v / 2 ^ (- e))%Z
      else None
  | _ => None
  end.

(** [toString()] of a number: the decimal digits of an integer below
    [10^21] in absolute value (both zeros print as 0), [NaN] and the
    infinities.  Other values, whose expansion has a fraction or an
    exponent, are outside this model ([None]). *)
Definition toString (x : JS.number) : option string :=
  match x with
  | S754_nan => Some "NaN"
  | S754_infinity false => Some "Infinity"
  | S754_infinity true => Some "-Infinity"
  | _ =>
      match integerValue x with
      | Some z =>
          if (Z.abs z <? 10 ^ 21)%Z
          then Some (NilEmpty.string_of_int (Z.to_int z))
          else None
      | None => None
      end
  end.

End Num.

(** [s.padStart(targetLength, c)] for a one-character filler. *)
Fixpoint fill (n : nat) (c : ascii) (s : string) : string :=
  match n with
  | O => s
  | S n => String c (fill n c s)
  end.

Definition padStart (targetLength : nat) (c : ascii) (s : string) : string :=
  fill (targetLength - String.length s) c s.

(** [formatTime] *)
Definition formatTime (seconds : nat) : option string :=
  let minutes := Num.Math_floor (JS.div (JS.of_nat seconds) (JS.of_Z 60)) in
  let secs := Num.rem (JS.of_nat seconds) (JS.of_Z 60) in
  match Num.toString minutes, Num.toString secs with
  | Some m, Some s =>
      Some (String.append (padStart 2 "0" m) (String.append ":" (padStart 2 "0" s)))
  | _, _ => None
  end.

(** The two-digit numeral of a number below 100, and the reading of a clock
    of the form [mm:ss]; they serve to state what [formatTime] shows. *)
Definition digit (n : nat) : ascii := ascii_of_nat (48 + n).

Definition twoDigits (n : nat) : string :=
  String (digit (n / 10)) (String (digit (n mod 10)) EmptyString).

Definition digitValue (c : ascii) : nat := nat_of_ascii c - 48.

Definition readClock (s : string) : option nat :=
  match s with
  | String a (String b (String ":" (String c (String d EmptyString)))) =>
      Some (60 * (10 * digitValue a + digitValue b)
            + (10 * digitValue c + digitValue d))%nat
  | _ => None
  end.

(** ** The exam row written at creation ([createExamSession]) *)

(** The row [createExamSession] inserts into [exams] when a backend is
    configured. *)
Record ExamInsert := mkExamInsert {
  insert_user_id : option string;
  insert_mode : ExamMode;
  total_questions : nat }.

Definition examInsert (userId : option string) (mode : ExamMode) : ExamInsert :=
  {| insert_user_id := userId;
     insert_mode := mode;
     total_questions := if decide (mode = mock_test) then 20%nat else 10%nat |}.

(** ** The results view (ExamResults.tsx) *)

(** A row of [exam_responses] as the results view reads it. *)
Record ExamResponse := mkResponse {
  response_question_id : string;
  response_chosen_answer_id : option string;
  response_is_correct : option bool }.

(** The rows of the exam [examId] once every insert of the log has been
    stored: what [.from('exam_responses').select(...).eq('exam_id', examId)]
    returns. *)
Definition storedResponses (examId : string) (l : list effect)
  : list ExamResponse :=
  flat_map (fun e =>
    match e with
    | InsertResponse id q a c =>
        if bool_decide (id = examId) then [mkResponse q (Some a) (Some c)] else []
    | _ => []
    end) l.

(** [responses.filter(r => r.is_correct).length] *)
Definition correctAnswers (responses : list ExamResponse) : nat :=
  length (List.filter (fun r => default false (response_is_correct r)) responses).

(** [responses.length] *)
Definition totalQuestions (responses : list ExamResponse) : nat :=
  length responses.

(** ** The application shell (App.tsx) *)

Module App.

Inductive AppView := dashboard | exam | results.

Record state := mkState {
  currentView : AppView;
  currentExamMode : ExamMode;
  currentExamId : string }.

Definition initialState : state :=
  {| currentView := dashboard; currentExamMode := practice; currentExamId := "" |}.



Definition handleBackToDashboard (a : state) : state :=
  {| currentView := dashboard; currentExamMode := currentExamMode a;
     currentExamId := currentExamId a |}.





End App.

(** ** The question form of the admin dashboard ([QuestionModal]) *)

Module QuestionModal.

(** Texts typed into the form: sequences of UTF-16 code units. *)
Definition text : Type := list N.





Inductive Category := road_sign | road_rule | general.

Record FormAnswer := mkFormAnswer {
  answer_text : text;
  is_correct : bool }.

Record FormData := mkFormData {
  question_text : text;
  category : Category;
  image_url : text;
  answers : list FormAnswer }.


(** The field and the value [updateAnswer] is called with: a text for
    ['answer_text'], a boolean for ['is_correct']. *)
Inductive AnswerField :=
| AnswerText (value : text)
| IsCorrect (value : bool).

Definition updateAnswer (index : nat) (fv : AnswerField) (prev : FormData)
  : FormData :=
  {| question_text := question_text prev;
     category := category prev;
     image_url := image_url prev;
     answers :=
       imap (fun i answer =>
               if (i =? index)%nat then
                 match fv with
                 | AnswerText v => mkFormAnswer v (is_correct answer)
                 | IsCorrect v => mkFormAnswer (answer_text answer) v
                 end
               else
                 match fv with
                 | IsCorrect true => mkFormAnswer (answer_text answer) false
                 | _ => answer
                 end)
            (answers prev) |}.

(** The other [setFormData] calls of the form. *)
Definition setQuestionText (v : text) (prev : FormData) : FormData :=
  {| question_text := v; category := category prev;
     image_url := image_url prev; answers := answers prev |}.

Definition setCategory (v : Category) (prev : FormData) : FormData :=
  {| question_text := question_text prev; category := v;
     image_url := image_url prev; answers := answers prev |}.

Definition setImageUrl (v : text) (prev : FormData) : FormData :=
  {| question_text := question_text prev; category := category prev;
     image_url := v; answers := answers prev |}.

Inductive edit :=
| EditQuestionText (v : text)
| EditCategory (v : Category)
| EditImageUrl (v : text)
| EditAnswer (index : nat) (fv : AnswerField).

Definition apply (f : FormData) (e : edit) : FormData :=
  match e with
  | EditQuestionText v => setQuestionText v f
  | EditCategory v => setCategory v f
  | EditImageUrl v => setImageUrl v f
  | EditAnswer index fv => updateAnswer index fv f
  end.

(** What [handleSave] sends and shows. *)
Inductive call :=
| UpdateQuestion (id : string) (question_text : text) (category : Category)
    (image_url : option text)
| DeleteAnswers (question_id : string)
| InsertQuestion (question_text : text) (category : Category)
    (image_url : option text) (created_by : option string)
| InsertAnswers (rows : list (string * text * bool))
| ToastError (message : string)
| ToastSuccess (message : string)
| OnSave.




(** Number of answers flagged correct. *)
Definition flagged (l : list FormAnswer) : nat :=
  length (List.filter is_correct l).

Definition isRequest (c : call) : bool :=
  match c with
  | UpdateQuestion _ _ _ _ | DeleteAnswers _ | InsertQuestion _ _ _ _
  | InsertAnswers _ => true
  | _ => false
  end.

End QuestionModal.

(** ** The statistics of the student dashboard ([fetchUserData]) *)

Module Dashboard.

(** The fields of an [exams] row the statistics read. *)
Record Exam := mkExam {
  score : Z;
  passed : bool }.








(** Exact sum of the scores. *)
Definition total (exams : list Exam) : Z :=
  fold_right (fun exam acc => (score exam + acc)%Z) 0%Z exams.

End Dashboard.

(** ** Invariants of a session *)

(** An effect names no exam, or the given one. *)
Definition carries (id : string) (e : effect) : Prop :=
  effectExamId e = None \/ effectExamId e = Some id.

(** The identifier is fixed, and the log and the suspended submissions
    know no other. *)
Definition oneExam (id : string) (s : session) : Prop :=
  examId (component s) = id
  /\ Forall (carries id) (log s)
  /\ Forall (fun p => p.1 = id) (inflight s).


(** ** The progress bar *)



(** * Interleaved sessions

    The handlers of the component are [async] functions.  Where one of them
    awaits a request to the backend (the question query, the insert of the
    exam row, the insert of a response, the update of the exam row) it is
    suspended until the request settles, and in the meantime the component
    keeps receiving clicks and timer ticks.  A suspended handler goes on
    with the constants of the render it was called from (its closure),
    while the functional updates it applies ([prev => prev + 1]) read the
    state of the moment.  An [await] on a promise that involves no request
    only yields to the microtask queue and lets no event in.

    The interval callback of the countdown belongs to the render in which
    the timer effect last ran, that is the render that followed the last
    change of [timeLeft] (the first render before the first tick). *)

Module Async.

(** A handler suspended on a request, with the render [c] it was called
    from. *)
Inductive suspended :=
| FetchingQuestions
| CreatingExam
| NextSaving (c : state)
| SubmitSaving (c : state)
| SubmitUpdating (c : state) (score : JS.number).

(** What leaves the component: the effects above and the [onExit]
    callback. *)
Inductive call :=
| Effect (e : effect)
| OnExit.

(** [Settle i ok]: the request of the [i]-th suspended handler settles;
    [ok = false] when its promise is rejected. *)
Inductive event :=
| ClickAnswer (answerId : string)
| ClickNext
| ClickPrevious
| ClickExit
| Tick
| Settle (i : nat) (ok : bool).

Record session := mkSession {
  component : state;
  mounted : bool;
  timerClosure : state;
  waiting : list suspended;
  log : list call }.

(** State setters do nothing once the component is unmounted. *)
Definition setComponent (st : state) (s : session) : session :=
  if mounted s then
    {| component := st; mounted := true; timerClosure := timerClosure s;
       waiting := waiting s; log := log s |}
  else s.

Definition issue (effects : list effect) (s : session) : session :=
  {| component := component s; mounted := mounted s;
     timerClosure := timerClosure s; waiting := waiting s;
     log := log s ++ (Effect <$> effects) |}.

Definition suspend (p : suspended) (s : session) : session :=
  {| component := component s; mounted := mounted s;
     timerClosure := timerClosure s; waiting := waiting s ++ [p];
     log := log s |}.

(** The parent replaces the component (after [onExamComplete] or
    [onExit]). *)
Definition unmount (s : session) : session :=
  {| component := component s; mounted := false;
     timerClosure := timerClosure s; waiting := waiting s; log := log s |}.

(** [setCurrentQuestionIndex(prev => prev + 1); setShowExplanation(false)] *)
Definition advance (st : state) : state :=
  {| questions := questions st;
     currentQuestionIndex := currentQuestionIndex st + 1;
     selectedAnswers := selectedAnswers st;
     timeLeft := timeLeft st;
     examId := examId st;
     loading := loading st;
     showExplanation := false |}.

Definition isNextSaving (p : suspended) : bool :=
  match p with NextSaving _ => true | _ => false end.

Section Session.

Variable mode : ExamMode.
Variable sh : Shuffler.
Variable src : DataSource.
Variable newId : option string.

(** [handleSubmitExam] of the render [c], past [saveResponse]. *)
Definition scoreAndFinish (c : state) (s : session) : session :=
  let score := score (questions c) (selectedAnswers c) in
  if demoMode src then
    unmount (issue [ToastSuccess score; OnExamComplete (examId c)] s)
  else
    suspend (SubmitUpdating c score)
      (issue [UpdateExam (examId c) score (passed score)] s).

(** [handleSubmitExam] of the render [c]: it goes on at once when
    [saveResponse] sends nothing, and is suspended on the insert
    otherwise. *)
Definition handleSubmitExam (c : state) (s : session) : session :=
  match saveUnlessLearning mode (demoMode src) c with
  | None => issue [ToastError "Failed to submit exam"] s
  | Some [] => scoreAndFinish c s
  | Some saved => suspend (SubmitSaving c) (issue saved s)
  end.

(** [handleNextQuestion] of the render [c], past [saveResponse]: the test
    reads the pointer of [c], the update the pointer of the moment. *)
Definition afterSaving (c : state) (s : session) : session :=
  if (Z.of_nat (currentQuestionIndex c)
        <? Z.of_nat (length (questions c)) - 1)%Z
  then setComponent (advance (component s)) s
  else handleSubmitExam c s.

Definition handleNextQuestion (c : state) (s : session) : session :=
  match saveUnlessLearning mode (demoMode src) c with
  | None => s
  | Some [] => afterSaving c s
  | Some saved => suspend (NextSaving c) (issue saved s)
  end.

(** The suspended handler [p] goes on.  A rejected question query or exam
    insert ends in the [catch] block like a reply that carries an error;
    [saveResponse] catches what its insert throws. *)
Definition resume (p : suspended) (ok : bool) (s : session) : session :=
  match p with
  | FetchingQuestions =>
      let '(st, effects) :=
        fetchQuestions mode sh (if ok then src else Backend None) (component s) in
      setComponent st (issue effects s)
  | CreatingExam =>
      let '(st, effects) :=
        createExamSession (if ok then newId else None) (component s) in
      setComponent st (issue effects s)
  | NextSaving c => afterSaving c s
  | SubmitSaving c => scoreAndFinish c s
  | SubmitUpdating c score =>
      if ok then unmount (issue [ToastSuccess score; OnExamComplete (examId c)] s)
      else issue [ToastError "Failed to submit exam"] s
  end.

Definition settle (i : nat) (ok : bool) (s : session) : session :=
  match waiting s !! i with
  | Some p =>
      resume p ok
        {| component := component s; mounted := mounted s;
           timerClosure := timerClosure s; waiting := delete i (waiting s);
           log := log s |}
  | None => s
  end.

(** The interval callback.  On expiry it calls the [handleSubmitExam] of
    its own render; otherwise the new value of [timeLeft] makes the timer
    effect run again, in the render that follows. *)
Definition tick (s : session) : session :=
  let st := component s in
  if (timeLeft st <=? 1)%nat then
    handleSubmitExam (timerClosure s) (setComponent (setTimeLeft 0 st) s)
  else
    let st' := setTimeLeft (timeLeft st - 1) st in
    {| component := st'; mounted := mounted s; timerClosure := st';
       waiting := waiting s; log := log s |}.

Definition exit (s : session) : session :=
  {| component := component s; mounted := false;
     timerClosure := timerClosure s; waiting := waiting s;
     log := log s ++ [OnExit] |}.

Definition step (s : session) (ev : event) : session :=
  match ev with
  | Settle i ok => settle i ok s
  | _ =>
      if negb (mounted s) then s
      else
        let st := component s in
        match ev with
        | ClickAnswer answerId =>
            if answerEnabled mode answerId st then
              match handleAnswerSelect mode answerId st with
              | Some st' => setComponent st' s
              | None => s
              end
            else s
        | ClickNext =>
            if nextEnabled mode st then handleNextQuestion st s else s
        | ClickPrevious =>
            if previousEnabled st then setComponent (handlePreviousQuestion st) s
            else s
        | ClickExit => if negb (loading st) then exit s else s
        | Tick => if timerRunning mode st then tick s else s
        | Settle _ _ => s
        end
  end.

Definition run (s : session) (evs : list event) : session :=
  fold_left step evs s.

(** The component after its first render and the two mount effects.
    Without a backend neither of them awaits anything; with one, both are
    suspended on their request. *)
Definition boot : session :=
  match src with
  | MockData _ =>
      {| component := (mount mode sh src newId).1; mounted := true;
         timerClosure := initialState mode; waiting := [];
         log := Effect <$> (mount mode sh src newId).2 |}
  | Backend _ =>
      {| component := initialState mode; mounted := true;
         timerClosure := initialState mode;
         waiting := [FetchingQuestions; CreatingExam]; log := [] |}
  end.

(** Next is never clicked while an earlier click on Next is still saving
    its response. *)
Fixpoint sequential (s : session) (evs : list event) : bool :=
  match evs with
  | [] => true
  | ev :: evs' =>
      negb (match ev with
            | ClickNext => existsb isNextSaving (waiting s)
            | _ => false
            end)
      && sequential (step s ev) evs'
  end.

End Session.

End Async.

(** * Properties *)

(** ** JavaScript numbers *)

Lemma JS_eqb_eq (x y : JS.number) : JS.eqb x y = true -> x = y.
Proof.
  destruct x as [s|s| |s m e], y as [s'|s'| |s' m' e']; simpl; try discriminate.
  - intros H. apply Bool.eqb_prop in H. congruence.
  - intros H. apply Bool.eqb_prop in H. congruence.
  - reflexivity.
  - rewrite !andb_true_iff. intros [[H1 H2] H3].
    apply Bool.eqb_prop in H1. apply Pos.eqb_eq in H2. apply Z.eqb_eq in H3.
    congruence.
Qed.

Lemma triangle_spec (bound : nat) (p : nat -> nat -> bool) :
  triangle bound p = true ->
  forall c n, (c <= n)%nat -> (n <= bound)%nat -> p c n = true.
Proof.
  unfold triangle. intros H c n Hc Hn.
  rewrite forallb_forall in H.
  specialize (H n). rewrite forallb_forall in H.
  apply H; apply in_seq; lia.
Qed.

(** Up to twenty questions the binary64 evaluation of the score expression
    is the exact quotient rounded half up. *)
Lemma percentage_exact (c n : nat) :
  (1 <= n)%nat -> (n <= 20)%nat -> (c <= n)%nat ->
  percentage c n = JS.of_Z (round_div (100 * Z.of_nat c) (Z.of_nat n)).
Proof.
  intros H1 H20 Hc.
  assert (T : triangle 20
            (fun c n => (n =? 0)%nat ||
               JS.eqb (percentage c n)
                 (JS.of_Z (round_div (100 * Z.of_nat c) (Z.of_nat n)))) = true)
    by (vm_compute; reflexivity).
  pose proof (triangle_spec _ _ T c n Hc H20) as E. simpl in E.
  apply orb_true_iff in E as [E|E].
  - apply Nat.eqb_eq in E. lia.
  - now apply JS_eqb_eq.
Qed.

(** Beyond that the two part: [23 / 40 * 100] evaluates to
    57.49999999999999 and rounds to 57, while 57.5 rounds to 58. *)
Example percentage_23_of_40 :
  percentage 23 40 = JS.of_Z 57 /\ round_div (100 * 23) 40 = 58%Z.
Proof. split; vm_compute; reflexivity. Qed.

(** With no question at all the quotient is [0 / 0]. *)
Lemma percentage_empty : percentage 0 0 = S754_nan.
Proof. reflexivity. Qed.

Lemma round_div_bounds (c n : Z) :
  (0 <= c <= n)%Z -> (1 <= n)%Z -> (0 <= round_div (100 * c) n <= 100)%Z.
Proof.
  intros Hc Hn. unfold round_div. split.
  - apply Z.div_pos; lia.
  - apply Z.lt_succ_r. apply Z.div_lt_upper_bound; lia.
Qed.

(** On the scores a session can have, the binary64 comparison with 70 is
    the comparison of the integers. *)
Lemma passed_of_Z (z : Z) :
  (0 <= z <= 100)%Z -> passed (JS.of_Z z) = (70 <=? z)%Z.
Proof.
  intros Hz.
  assert (T : forallb (fun k => Bool.eqb (passed (JS.of_Z (Z.of_nat k)))
                                  (70 <=? Z.of_nat k)%Z) (seq 0 101) = true)
    by (vm_compute; reflexivity).
  rewrite forallb_forall in T.
  specialize (T (Z.to_nat z)). rewrite Z2Nat.id in T by lia.
  apply Bool.eqb_prop. apply T. apply in_seq. lia.
Qed.

(** ** Counting *)

Lemma count_loop {A} (p : A -> bool) (l : list A) (k : nat) :
  fold_left (fun count x => if p x then S count else count) l k
  = (k + length (List.filter p l))%nat.
Proof.
  revert k. induction l as [|x l IH]; intros k; simpl.
  - lia.
  - rewrite IH. destruct (p x); simpl; lia.
Qed.

Lemma correctCount_filter (qs : list Question) (m : gmap string string) :
  correctCount qs m = length (List.filter (isCounted qs) (map_to_list m)).
Proof. unfold correctCount. now rewrite count_loop. Qed.

Lemma filter_length_perm {A} (p : A -> bool) (l l' : list A) :
  l ≡ₚ l' -> length (List.filter p l) = length (List.filter p l').
Proof.
  induction 1 as [|x l l' _ IH|x y l|l l' l'' _ IH1 _ IH2]; simpl.
  - reflexivity.
  - destruct (p x); simpl; congruence.
  - destruct (p x), (p y); reflexivity.
  - congruence.
Qed.

Lemma correctCount_empty (qs : list Question) : correctCount qs ∅ = 0%nat.
Proof. rewrite correctCount_filter, map_to_list_empty. reflexivity. Qed.

(** A fresh key adds one exactly when its entry passes the test. *)
Lemma correctCount_insert (qs : list Question) (m : gmap string string)
  (k v : string) :
  m !! k = None ->
  correctCount qs (<[k:=v]> m)
  = ((if isCounted qs (k, v) then 1 else 0) + correctCount qs m)%nat.
Proof.
  intros Hk. rewrite !correctCount_filter.
  rewrite (filter_length_perm _ _ _ (map_to_list_insert m k v Hk)).
  simpl. destruct (isCounted qs (k, v)); reflexivity.
Qed.

Lemma findQuestion_None (qs : list Question) (k : string) :
  k ∉ fmap question_id qs -> findQuestion qs k = None.
Proof.
  induction qs as [|q qs IH]; simpl; intros Hk; [reflexivity|].
  rewrite not_elem_of_cons in Hk. destruct Hk as [Hne Hk].
  unfold findQuestion in *. simpl.
  rewrite bool_decide_eq_false_2 by congruence. now apply IH.
Qed.

Lemma isCounted_unknown (qs : list Question) (k v : string) :
  k ∉ fmap question_id qs -> isCounted qs (k, v) = false.
Proof.
  intros Hk. unfold isCounted. simpl. now rewrite findQuestion_None.
Qed.

Lemma isCounted_cons (q : Question) (qs : list Question) (k v : string) :
  isCounted (q :: qs) (k, v)
  = if bool_decide (question_id q = k)
    then bool_decide (Some v = answer_id <$> correctAnswer q)
    else isCounted qs (k, v).
Proof.
  unfold isCounted, findQuestion. simpl.
  destruct (bool_decide (question_id q = k)); reflexivity.
Qed.

Lemma answeredCorrectly_insert_ne (m : gmap string string) (q : Question)
  (k v : string) :
  k ≠ question_id q ->
  answeredCorrectly (<[k:=v]> m) q = answeredCorrectly m q.
Proof.
  intros Hne. unfold answeredCorrectly. now rewrite lookup_insert_ne.
Qed.

Lemma answeredCorrectly_insert_eq (m : gmap string string) (q : Question)
  (v : string) :
  answeredCorrectly (<[question_id q:=v]> m) q
  = bool_decide (Some v = answer_id <$> correctAnswer q).
Proof.
  unfold answeredCorrectly. rewrite lookup_insert_eq.
  destruct (correctAnswer q) as [a|]; simpl.
  - apply bool_decide_ext. split; congruence.
  - reflexivity.
Qed.

Lemma correctQuestions_cons (q : Question) (qs : list Question)
  (m : gmap string string) :
  correctQuestions (q :: qs) m
  = ((if answeredCorrectly m q then 1 else 0) + correctQuestions qs m)%nat.
Proof.
  unfold correctQuestions. simpl. destruct (answeredCorrectly m q); reflexivity.
Qed.

Lemma correctQuestions_insert_other (qs : list Question)
  (m : gmap string string) (k v : string) :
  k ∉ fmap question_id qs ->
  correctQuestions qs (<[k:=v]> m) = correctQuestions qs m.
Proof.
  induction qs as [|q qs IH]; simpl; intros Hk; [reflexivity|].
  rewrite not_elem_of_cons in Hk. destruct Hk as [Hne Hk].
  rewrite !correctQuestions_cons, answeredCorrectly_insert_ne by done.
  now rewrite IH.
Qed.

Lemma correctQuestions_insert (qs : list Question) (m : gmap string string)
  (k v : string) :
  NoDup (fmap question_id qs) -> m !! k = None ->
  correctQuestions qs (<[k:=v]> m)
  = ((if isCounted qs (k, v) then 1 else 0) + correctQuestions qs m)%nat.
Proof.
  intros Hnd Hk. induction qs as [|q qs IH]; [reflexivity|].
  simpl in Hnd. apply NoDup_cons in Hnd as [Hq Hnd].
  rewrite isCounted_cons, !correctQuestions_cons.
  destruct (decide (question_id q = k)) as [<-|Hne].
  - rewrite bool_decide_eq_true_2 by done.
    rewrite answeredCorrectly_insert_eq.
    rewrite (correctQuestions_insert_other qs m _ v Hq).
    unfold answeredCorrectly at 1. rewrite Hk. lia.
  - rewrite bool_decide_eq_false_2 by done.
    rewrite answeredCorrectly_insert_ne by done.
    rewrite (IH Hnd). lia.
Qed.

Lemma correctQuestions_empty (qs : list Question) : correctQuestions qs ∅ = 0%nat.
Proof.
  unfold correctQuestions. induction qs as [|q qs IH]; simpl; [reflexivity|].
  unfold answeredCorrectly at 1. now rewrite lookup_empty.
Qed.

(** With pairwise distinct question identifiers, the counter of the
    [forEach] over the keys is the number of correctly answered questions. *)
Lemma correctCount_questions (qs : list Question) (m : gmap string string) :
  NoDup (fmap question_id qs) -> correctCount qs m = correctQuestions qs m.
Proof.
  intros Hnd. induction m as [|k v m Hk IH] using map_ind.
  - now rewrite correctCount_empty, correctQuestions_empty.
  - rewrite correctCount_insert, correctQuestions_insert by assumption.
    now rewrite IH.
Qed.

Lemma filter_length_le {A} (p a b : A -> bool) (l : list A) :
  (forall x, p x = true -> a x = true \/ b x = true) ->
  (length (List.filter p l)
   <= length (List.filter a l) + length (List.filter b l))%nat.
Proof.
  intros H. induction l as [|x l IH]; simpl; [lia|].
  specialize (H x).
  destruct (p x), (a x), (b x); simpl;
    first [lia | destruct H; [reflexivity|discriminate|discriminate]].
Qed.

Lemma key_filter_le (l : list (string * string)) (k : string) :
  NoDup l.*1 ->
  (length (List.filter (fun kv => bool_decide (kv.1 = k)) l) <= 1)%nat.
Proof.
  induction l as [|[k' v'] l IH]; simpl; intros Hnd; [lia|].
  apply NoDup_cons in Hnd as [Hk' Hnd].
  destruct (decide (k' = k)) as [->|Hne].
  - rewrite bool_decide_eq_true_2 by done. simpl.
    assert (E : List.filter (fun kv : string * string => bool_decide (kv.1 = k)) l = []).
    { clear IH Hnd. induction l as [|[k2 v2] l IHl]; simpl; [reflexivity|].
      simpl in Hk'. rewrite not_elem_of_cons in Hk'. destruct Hk' as [Hne Hk'].
      rewrite bool_decide_eq_false_2 by congruence. now apply IHl. }
    rewrite E. simpl. lia.
  - rewrite bool_decide_eq_false_2 by done. now apply IH.
Qed.

(** Whatever the keys are, no more entries are counted than there are
    questions. *)
Lemma correctCount_le (qs : list Question) (m : gmap string string) :
  (correctCount qs m <= length qs)%nat.
Proof.
  rewrite correctCount_filter.
  pose proof (NoDup_fst_map_to_list m) as Hnd.
  induction qs as [|q qs IH]; simpl.
  - assert (E : forall l, List.filter (isCounted []) l = []).
    { induction l as [|[k v] l IHl]; simpl; [reflexivity|]. exact IHl. }
    rewrite E. simpl. lia.
  - pose proof (filter_length_le (isCounted (q :: qs)) (isCounted qs)
                  (fun kv => bool_decide (kv.1 = question_id q))
                  (map_to_list m)) as H.
    pose proof (key_filter_le (map_to_list m) (question_id q) Hnd) as H1.
    enough (length (List.filter (isCounted (q :: qs)) (map_to_list m))
            <= length (List.filter (isCounted qs) (map_to_list m))
               + length (List.filter
                   (fun kv : string * string => bool_decide (kv.1 = question_id q))
                   (map_to_list m)))%nat by lia.
    apply H. intros [k v]. rewrite isCounted_cons. simpl.
    destruct (decide (question_id q = k)) as [->|Hne].
    + intros _. right. now apply bool_decide_eq_true_2.
    + rewrite bool_decide_eq_false_2 by done. now left.
Qed.

(** The score of at most twenty questions is an integer percentage. *)
Lemma score_integer (qs : list Question) (m : gmap string string) :
  qs ≠ [] -> (length qs <= 20)%nat ->
  let z := round_div (100 * Z.of_nat (correctCount qs m)) (Z.of_nat (length qs)) in
  score qs m = JS.of_Z z /\ (0 <= z <= 100)%Z.
Proof.
  intros Hne Hlen z. pose proof (correctCount_le qs m) as Hc.
  assert (1 <= length qs)%nat by (destruct qs; [done|simpl; lia]).
  split.
  - unfold score. now apply percentage_exact.
  - apply round_div_bounds; lia.
Qed.

Lemma score_no_questions (m : gmap string string) : score [] m = S754_nan.
Proof.
  unfold score. pose proof (correctCount_le [] m) as H. simpl in *.
  replace (correctCount [] m) with 0%nat by lia. reflexivity.
Qed.

(** ** The loader *)

Lemma shuffled_length (sh : Shuffler) (rows : list QuestionRow) :
  length (shuffled sh rows) = length rows.
Proof.
  unfold shuffled.
  rewrite (Permutation_length (shuffleQuestions_perm sh _)).
  apply length_fmap.
Qed.

Lemma fetchQuestions_length (mode : ExamMode) (sh : Shuffler) (src : DataSource)
  (st : state) :
  length (questions (fetchQuestions mode sh src st).1)
  = match src with
    | MockData rows | Backend (Some rows) =>
        Nat.min (questionLimit mode) (length rows)
    | Backend None => length (questions st)
    end.
Proof.
  destruct src as [rows|[rows|]]; simpl; try reflexivity;
    rewrite shuffled_length, length_take; lia.
Qed.

Lemma mount_questions (mode : ExamMode) (sh : Shuffler) (src : DataSource)
  (newId : option string) :
  questions (mount mode sh src newId).1
  = questions (fetchQuestions mode sh src (initialState mode)).1.
Proof.
  unfold mount.
  destruct (fetchQuestions mode sh src (initialState mode)) as [st1 e1].
  destruct newId; reflexivity.
Qed.

Lemma mount_index (mode : ExamMode) (sh : Shuffler) (src : DataSource)
  (newId : option string) :
  currentQuestionIndex (mount mode sh src newId).1 = 0%nat.
Proof.
  unfold mount. destruct src as [rows|[rows|]], newId; reflexivity.
Qed.

Lemma questionLimit_le (mode : ExamMode) : (questionLimit mode <= 20)%nat.
Proof. destruct mode; vm_compute; lia. Qed.

Lemma mount_length_le (mode : ExamMode) (sh : Shuffler) (src : DataSource)
  (newId : option string) :
  (length (questions (mount mode sh src newId).1) <= questionLimit mode)%nat.
Proof.
  rewrite mount_questions, fetchQuestions_length.
  destruct src as [rows|[rows|]]; simpl; lia.
Qed.

(** ** Handlers and steps: what they leave alone *)

Lemma handleAnswerSelect_frame (mode : ExamMode) (a : string) (st st' : state) :
  handleAnswerSelect mode a st = Some st' ->
  questions st' = questions st
  /\ currentQuestionIndex st' = currentQuestionIndex st
  /\ timeLeft st' = timeLeft st.
Proof.
  unfold handleAnswerSelect. destruct (currentQuestion st); [|discriminate].
  intros [= <-]. auto.
Qed.

Lemma handleNextQuestion_questions (mode : ExamMode) (demo : bool) (st : state) :
  questions (handleNextQuestion mode demo st).1.1 = questions st.
Proof.
  unfold handleNextQuestion.
  destruct (saveUnlessLearning mode demo st); [|reflexivity].
  destruct (_ <? _)%Z; [reflexivity|].
  destruct (handleSubmitExam mode demo st). reflexivity.
Qed.

Lemma handleNextQuestion_index (mode : ExamMode) (demo : bool) (st : state) :
  let st' := (handleNextQuestion mode demo st).1.1 in
  currentQuestionIndex st' = currentQuestionIndex st
  \/ (currentQuestionIndex st' = currentQuestionIndex st + 1
      /\ currentQuestionIndex st + 1 < length (questions st))%nat.
Proof.
  unfold handleNextQuestion.
  destruct (saveUnlessLearning mode demo st); [|now left].
  destruct (_ <? _)%Z eqn:E.
  - right. apply Z.ltb_lt in E. simpl. lia.
  - destruct (handleSubmitExam mode demo st). now left.
Qed.

Lemma handlePreviousQuestion_questions (st : state) :
  questions (handlePreviousQuestion st) = questions st.
Proof. unfold handlePreviousQuestion. destruct (_ <? _)%nat; reflexivity. Qed.

Lemma handlePreviousQuestion_index (st : state) :
  currentQuestionIndex (handlePreviousQuestion st)
  = (if (0 <? currentQuestionIndex st)%nat
     then currentQuestionIndex st - 1 else currentQuestionIndex st)%nat.
Proof. unfold handlePreviousQuestion. destruct (_ <? _)%nat; reflexivity. Qed.

Lemma timerCallback_frame (mode : ExamMode) (demo : bool) (st : state) :
  let st' := (timerCallback mode demo st).1.1 in
  questions st' = questions st
  /\ currentQuestionIndex st' = currentQuestionIndex st
  /\ selectedAnswers st' = selectedAnswers st
  /\ showExplanation st' = showExplanation st.
Proof.
  unfold timerCallback. destruct (_ <=? _)%nat.
  - destruct (handleSubmitExam mode demo st). simpl. auto.
  - simpl. auto.
Qed.

(** The component after a step is the old one or the result of the handler
    the event is wired to. *)
Lemma step_component (mode : ExamMode) (demo : bool) (s : session) (ev : event) :
  let st := component s in
  let st' := component (step mode demo s ev) in
  st' = st
  \/ (exists a, ev = ClickAnswer a /\ answerEnabled mode a st = true
                /\ handleAnswerSelect mode a st = Some st')
  \/ (ev = ClickNext /\ nextEnabled mode st = true
      /\ st' = (handleNextQuestion mode demo st).1.1)
  \/ (ev = ClickPrevious /\ previousEnabled st = true
      /\ st' = handlePreviousQuestion st)
  \/ (ev = Tick /\ timerRunning mode st = true
      /\ st' = (timerCallback mode demo st).1.1).
Proof.
  destruct ev as [a| | | | |ok]; simpl.
  - destruct (mounted s); simpl; [|now left].
    destruct (answerEnabled mode a (component s)) eqn:E; [|now left].
    destruct (handleAnswerSelect mode a (component s)) as [st'|] eqn:E';
      [|now left].
    right; left. exists a. auto.
  - destruct (mounted s); simpl; [|now left].
    destruct (nextEnabled mode (component s)) eqn:E; [|now left].
    destruct (handleNextQuestion mode demo (component s)) as [[st' effs] sub].
    right; right; left. auto.
  - destruct (mounted s); simpl; [|now left].
    destruct (previousEnabled (component s)) eqn:E; [|now left].
    right; right; right; left. auto.
  - destruct (mounted s); simpl; [|now left].
    destruct (negb (loading (component s))); now left.
  - destruct (mounted s); simpl; [|now left].
    destruct (timerRunning mode (component s)) eqn:E; [|now left].
    destruct (timerCallback mode demo (component s)) as [[st' effs] sub].
    right; right; right; right. auto.
  - unfold settle. destruct (inflight s) as [|[id sc] rest]; [now left|].
    destruct ok; now left.
Qed.

Lemma step_questions (mode : ExamMode) (demo : bool) (s : session) (ev : event) :
  questions (component (step mode demo s ev)) = questions (component s).
Proof.
  destruct (step_component mode demo s ev)
    as [E|[(a & _ & _ & E)|[(_ & _ & E)|[(_ & _ & E)|(_ & _ & E)]]]].
  - now rewrite E.
  - now apply handleAnswerSelect_frame in E.
  - rewrite E. apply handleNextQuestion_questions.
  - rewrite E. apply handlePreviousQuestion_questions.
  - rewrite E. apply timerCallback_frame.
Qed.

Lemma step_inBounds (mode : ExamMode) (demo : bool) (s : session) (ev : event) :
  inBounds (component s) -> inBounds (component (step mode demo s ev)).
Proof.
  unfold inBounds. rewrite step_questions.
  destruct (step_component mode demo s ev)
    as [E|[(a & _ & _ & E)|[(_ & _ & E)|[(_ & _ & E)|(_ & _ & E)]]]].
  - now rewrite E.
  - apply handleAnswerSelect_frame in E as (_ & -> & _). auto.
  - rewrite E.
    destruct (handleNextQuestion_index mode demo (component s)) as [->|[-> ?]];
      [auto|lia].
  - rewrite E, handlePreviousQuestion_index.
    destruct (_ <? _)%nat eqn:L; [|auto].
    apply Nat.ltb_lt in L. lia.
  - rewrite E.
    destruct (timerCallback_frame mode demo (component s)) as (_ & -> & _).
    auto.
Qed.

Lemma run_snoc (mode : ExamMode) (demo : bool) (s : session)
  (evs : list event) (ev : event) :
  run mode demo s (evs ++ [ev]) = step mode demo (run mode demo s evs) ev.
Proof. unfold run. now rewrite fold_left_app. Qed.

Lemma run_questions (mode : ExamMode) (demo : bool) (s : session)
  (evs : list event) :
  questions (component (run mode demo s evs)) = questions (component s).
Proof.
  induction evs as [|ev evs IH] using rev_ind; [reflexivity|].
  now rewrite run_snoc, step_questions.
Qed.

Lemma run_inBounds (mode : ExamMode) (demo : bool) (s : session)
  (evs : list event) :
  inBounds (component s) -> inBounds (component (run mode demo s evs)).
Proof.
  intros H. induction evs as [|ev evs IH] using rev_ind; [exact H|].
  rewrite run_snoc. now apply step_inBounds.
Qed.

(** The log only grows, by the effects of the handler the event runs or by
    the resumption of a suspended submission. *)
Lemma step_log (mode : ExamMode) (demo : bool) (s : session) (ev : event) :
  exists effs, log (step mode demo s ev) = log s ++ effs
    /\ (effs = []
        \/ (ev = ClickNext /\ mounted s = true
            /\ nextEnabled mode (component s) = true
            /\ effs = (handleNextQuestion mode demo (component s)).1.2)
        \/ (ev = Tick /\ mounted s = true
            /\ timerRunning mode (component s) = true
            /\ effs = (timerCallback mode demo (component s)).1.2)
        \/ (exists id sc rest, ev = Settle true /\ inflight s = (id, sc) :: rest
            /\ effs = [ToastSuccess sc; OnExamComplete id])
        \/ (ev = Settle false /\ effs = [ToastError "Failed to submit exam"])).
Proof.
  destruct ev as [a| | | | |ok]; simpl.
  - exists []. rewrite app_nil_r. split; [|now left].
    destruct (mounted s); simpl; [|reflexivity].
    destruct (answerEnabled mode a (component s)); [|reflexivity].
    destruct (handleAnswerSelect mode a (component s)); simpl;
      [now rewrite app_nil_r|reflexivity].
  - destruct (mounted s) eqn:M; simpl;
      [|exists []; rewrite app_nil_r; split; [reflexivity|now left]].
    destruct (nextEnabled mode (component s)) eqn:E;
      [|exists []; rewrite app_nil_r; split; [reflexivity|now left]].
    destruct (handleNextQuestion mode demo (component s)) as [[st' effs] sub].
    exists effs. split; [reflexivity|]. right; left. auto.
  - exists []. rewrite app_nil_r. split; [|now left].
    destruct (mounted s); simpl; [|reflexivity].
    destruct (previousEnabled (component s)); simpl;
      [now rewrite app_nil_r|reflexivity].
  - exists []. rewrite app_nil_r. split; [|now left].
    destruct (mounted s); simpl; [|reflexivity].
    destruct (negb (loading (component s))); reflexivity.
  - destruct (mounted s) eqn:M; simpl;
      [|exists []; rewrite app_nil_r; split; [reflexivity|now left]].
    destruct (timerRunning mode (component s)) eqn:E;
      [|exists []; rewrite app_nil_r; split; [reflexivity|now left]].
    destruct (timerCallback mode demo (component s)) as [[st' effs] sub].
    exists effs. split; [reflexivity|]. right; right; left. auto.
  - unfold settle. destruct (inflight s) as [|[id sc] rest] eqn:I.
    + exists []. rewrite app_nil_r. split; [reflexivity|now left].
    + destruct ok; simpl.
      * eexists. split; [reflexivity|]. right; right; right; left.
        exists id, sc, rest. auto.
      * eexists. split; [reflexivity|]. right; right; right; right. auto.
Qed.

Lemma saveResponse_inserts (demo : bool) (st : state) (saved : list effect) :
  saveResponse demo st = Some saved -> Forall (fun e => isInsert e = true) saved.
Proof.
  unfold saveResponse. destruct (currentQuestion st) as [q|]; [|discriminate].
  destruct (selectedAnswers st !! question_id q) as [a|];
    [|intros [= <-]; constructor].
  destruct (negb (truthy a)); [intros [= <-]; constructor|].
  destruct demo; intros [= <-]; repeat constructor.
Qed.

Lemma saveUnlessLearning_inserts (mode : ExamMode) (demo : bool) (st : state)
  (saved : list effect) :
  saveUnlessLearning mode demo st = Some saved ->
  Forall (fun e => isInsert e = true) saved.
Proof.
  unfold saveUnlessLearning. destruct (decide (mode = learning)).
  - intros [= <-]. constructor.
  - apply saveResponse_inserts.
Qed.

Lemma saveUnlessLearning_Some (mode : ExamMode) (demo : bool) (st : state) :
  is_Some (currentQuestion st) -> is_Some (saveUnlessLearning mode demo st).
Proof.
  intros [q Hq]. unfold saveUnlessLearning, saveResponse. rewrite Hq.
  destruct (decide (mode = learning)); [eauto|].
  destruct (selectedAnswers st !! question_id q) as [a|]; [|eauto].
  destruct (negb (truthy a)); [eauto|]. destruct demo; eauto.
Qed.

Lemma currentQuestion_Some (st : state) :
  questions st ≠ [] -> inBounds st -> is_Some (currentQuestion st).
Proof.
  intros Hne Hb. unfold currentQuestion. apply lookup_lt_is_Some.
  destruct Hb as [-> | ?]; [|assumption].
  destruct (questions st); [done|simpl; lia].
Qed.

Lemma graded_insert (l : list effect) :
  Forall (fun e => isInsert e = true) l -> Forall graded l.
Proof.
  intros H. eapply Forall_impl; [exact H|].
  intros [] E; simpl in *; try exact I. discriminate.
Qed.

Lemma handleSubmitExam_graded (mode : ExamMode) (demo : bool) (st : state) :
  (length (questions st) <= 20)%nat ->
  Forall graded (handleSubmitExam mode demo st).1.
Proof.
  intros Hlen. unfold handleSubmitExam.
  destruct (saveUnlessLearning mode demo st) as [saved|] eqn:S.
  - apply saveUnlessLearning_inserts, graded_insert in S.
    destruct demo; simpl; apply Forall_app; (split; [assumption|]).
    { constructor; [exact I|]. constructor; [exact I|]. constructor. }
    constructor; [|constructor]. simpl.
    destruct (questions st) as [|q qs] eqn:Q.
    + left. rewrite score_no_questions. split; reflexivity.
    + right. rewrite <- Q in *.
      assert (Hne : questions st ≠ []) by (rewrite Q; discriminate).
      destruct (score_integer (questions st) (selectedAnswers st) Hne Hlen)
        as [E B].
      eexists. split; [exact E|]. split; [exact B|].
      rewrite E. now apply passed_of_Z.
  - repeat constructor.
Qed.

Lemma handleNextQuestion_graded (mode : ExamMode) (demo : bool) (st : state) :
  (length (questions st) <= 20)%nat ->
  Forall graded (handleNextQuestion mode demo st).1.2.
Proof.
  intros Hlen. unfold handleNextQuestion.
  destruct (saveUnlessLearning mode demo st) as [saved|] eqn:S; [|constructor].
  apply saveUnlessLearning_inserts, graded_insert in S.
  destruct (_ <? _)%Z; [exact S|].
  pose proof (handleSubmitExam_graded mode demo st Hlen) as G.
  destruct (handleSubmitExam mode demo st) as [effs sub]. simpl in *.
  apply Forall_app. now split.
Qed.

Lemma timerCallback_graded (mode : ExamMode) (demo : bool) (st : state) :
  (length (questions st) <= 20)%nat ->
  Forall graded (timerCallback mode demo st).1.2.
Proof.
  intros Hlen. unfold timerCallback. destruct (_ <=? _)%nat; [|constructor].
  pose proof (handleSubmitExam_graded mode demo st Hlen) as G.
  now destruct (handleSubmitExam mode demo st) as [effs sub].
Qed.

Lemma run_graded (mode : ExamMode) (demo : bool) (s : session)
  (evs : list event) :
  (length (questions (component s)) <= 20)%nat ->
  Forall graded (log s) -> Forall graded (log (run mode demo s evs)).
Proof.
  intros Hlen H0. induction evs as [|ev evs IH] using rev_ind; [exact H0|].
  rewrite run_snoc.
  assert (Hlen' : (length (questions (component (run mode demo s evs))) <= 20)%nat)
    by now rewrite run_questions.
  destruct (step_log mode demo (run mode demo s evs) ev) as (effs & -> & Hc).
  apply Forall_app. split; [exact IH|].
  destruct Hc as [->|[(_ & _ & _ & ->)|[(_ & _ & _ & ->)
                 |[(id & sc & rest & _ & _ & ->)|(_ & ->)]]]].
  - constructor.
  - now apply handleNextQuestion_graded.
  - now apply timerCallback_graded.
  - repeat constructor.
  - repeat constructor.
Qed.

(** ** The claims *)

(** C1.  In every session with at least one question (questions carrying
    pairwise distinct identifiers), a submission computes the score
    [round (100 * correctCount / totalQuestions)]: [correctCount] is the
    number of questions of the sequence whose chosen answer is the
    identifier of the question's flagged answer, [totalQuestions] is the
    length of the whole sequence, the quotient is rounded half up, and the
    score lies between 0 and 100.  This is the value the submission sends
    with the exam update (or shows in the toast when no backend is
    configured). *)
Theorem score_is_rounded_percentage (mode : ExamMode)
  (sh : Shuffler) (src : DataSource) (newId : option string)
  (evs : list event) :
  let demo := demoMode src in
  let st := component (run mode demo (start (mount mode sh src newId).1) evs) in
  questions st ≠ [] ->
  NoDup (fmap question_id (questions st)) ->
  let z := round_div
             (100 * Z.of_nat (correctQuestions (questions st) (selectedAnswers st)))
             (Z.of_nat (length (questions st))) in
  (0 <= z <= 100)%Z
  /\ score (questions st) (selectedAnswers st) = JS.of_Z z
  /\ exists saved,
       saveUnlessLearning mode demo st = Some saved
       /\ handleSubmitExam mode demo st
          = if demo
            then (saved ++ [ToastSuccess (JS.of_Z z); OnExamComplete (examId st)],
                  Completed)
            else (saved ++ [UpdateExam (examId st) (JS.of_Z z) (70 <=? z)%Z],
                  Awaiting (examId st) (JS.of_Z z)).
Proof.
  intros demo st Hne Hnd z.
  assert (Hlen : (length (questions st) <= 20)%nat).
  { unfold st. rewrite run_questions. simpl.
    etransitivity; [apply mount_length_le|apply questionLimit_le]. }
  assert (Hb : inBounds st).
  { unfold st. apply run_inBounds. left. simpl. apply mount_index. }
  destruct (score_integer (questions st) (selectedAnswers st) Hne Hlen)
    as [E B].
  rewrite (correctCount_questions _ _ Hnd) in E, B.
  fold z in E, B.
  split; [exact B|]. split; [exact E|].
  destruct (saveUnlessLearning_Some mode demo st (currentQuestion_Some st Hne Hb))
    as [saved S].
  exists saved. split; [exact S|].
  unfold handleSubmitExam. rewrite S, E, (passed_of_Z z B). reflexivity.
Qed.

Lemma score_is_rounded_percentage_witness :
  let st := component (run practice false (sampleSession practice)
              [ClickAnswer "q10-b"; ClickNext; ClickAnswer "q09-a"; ClickNext]) in
  questions st ≠ []
  /\ NoDup (fmap question_id (questions st))
  /\ score (questions st) (selectedAnswers st) = JS.of_Z 10.
Proof.
  intros st.
  assert (H1 : questions st ≠ []) by (vm_compute; discriminate).
  assert (H2 : NoDup (fmap question_id (questions st))) by compute_done.
  split; [exact H1|]. split; [exact H2|].
  destruct (score_is_rounded_percentage practice reverseShuffle
              (Backend (Some samplePool)) (Some "exam-1")
              [ClickAnswer "q10-b"; ClickNext; ClickAnswer "q09-a"; ClickNext]
              H1 H2) as (_ & E & _).
  exact E.
Defined.

(** C2.  Every finalisation a session issues carries a pass flag that is
    true exactly when the score is at least 70: the score is an integer
    between 0 and 100 and the flag is the comparison [70 <= score] (or
    there is no question, the score is NaN and the flag is false).  At the
    boundary, 70 passes and 69 fails. *)
Theorem passed_iff_score_at_least_70 (mode : ExamMode)
  (sh : Shuffler) (src : DataSource) (newId : option string)
  (evs : list event) (id : string) (sc : JS.number) (p : bool) :
  UpdateExam id sc p
    ∈ log (run mode (demoMode src) (start (mount mode sh src newId).1) evs) ->
  p = passed sc
  /\ ((sc = S754_nan /\ p = false)
      \/ exists z, sc = JS.of_Z z /\ (0 <= z <= 100)%Z /\ p = (70 <=? z)%Z)
  /\ passed (JS.of_Z 70) = true
  /\ passed (JS.of_Z 69) = false.
Proof.
  intros Hin.
  assert (G : Forall graded
                (log (run mode (demoMode src)
                        (start (mount mode sh src newId).1) evs))).
  { apply run_graded; [|constructor]. simpl.
    etransitivity; [apply mount_length_le|apply questionLimit_le]. }
  rewrite Forall_forall in G. specialize (G _ Hin). simpl in G.
  split; [|split; [exact G|split; reflexivity]].
  destruct G as [[-> ->]|(z & -> & B & ->)]; [reflexivity|].
  symmetry. now apply passed_of_Z.
Qed.

Lemma passed_iff_score_at_least_70_witness :
  UpdateExam "exam-1" (JS.of_Z 69) false
    ∈ log (run mock_test false (sampleSession mock_test)
             (answerAll ["q13-b"; "q12-b"; "q11-b"; "q10-b"; "q09-b"; "q08-b";
                         "q07-b"; "q06-b"; "q05-b"; "q04-a"; "q03-a"; "q02-a";
                         "q01-c"]))
  /\ false = passed (JS.of_Z 69).
Proof.
  assert (H : UpdateExam "exam-1" (JS.of_Z 69) false
    ∈ log (run mock_test false (sampleSession mock_test)
             (answerAll ["q13-b"; "q12-b"; "q11-b"; "q10-b"; "q09-b"; "q08-b";
                         "q07-b"; "q06-b"; "q05-b"; "q04-a"; "q03-a"; "q02-a";
                         "q01-c"]))).
  { apply list_elem_of_In. vm_compute. intuition reflexivity. }
  split; [exact H|].
  exact (proj1 (passed_iff_score_at_least_70 mock_test reverseShuffle
                  (Backend (Some samplePool)) (Some "exam-1") _ _ _ _ H)).
Defined.

(** A practice session with seven of ten questions right is finalised with
    score 70 and the flag up. *)
Example practice_seven_of_ten :
  UpdateExam "exam-1" (JS.of_Z 70) true
    ∈ log (run practice false (sampleSession practice)
             (answerAll ["q10-b"; "q09-b"; "q08-b"; "q07-b"; "q06-b"; "q05-b";
                         "q04-b"; "q03-a"; "q02-a"; "q01-c"])).
Proof. apply list_elem_of_In. vm_compute. intuition reflexivity. Qed.

Lemma findQuestion_Some (qs : list Question) (q : Question) :
  q ∈ qs -> NoDup (fmap question_id qs) ->
  findQuestion qs (question_id q) = Some q.
Proof.
  unfold findQuestion.
  induction qs as [|q' qs IH]; intros Hin Hnd; [now apply elem_of_nil in Hin|].
  simpl in *. apply NoDup_cons in Hnd as [Hq' Hnd].
  apply elem_of_cons in Hin as [->|Hin].
  - now rewrite bool_decide_eq_true_2.
  - rewrite bool_decide_eq_false_2; [now apply IH|].
    intros E. apply Hq'. rewrite E. apply list_elem_of_fmap. now exists q.
Qed.

Lemma correctAnswer_None (q : Question) :
  (forall a, a ∈ answers q -> is_correct a = false) -> correctAnswer q = None.
Proof.
  unfold correctAnswer. induction (answers q) as [|a l IH]; intros H; simpl.
  - reflexivity.
  - rewrite (H a) by apply list_elem_of_here.
    apply IH. intros a' Ha'. apply H. now apply list_elem_of_further.
Qed.

(** C4.  A question none of whose answers carries the correctness flag
    (a question without answers included) is never counted correct: for
    every identifier that may be recorded as its chosen answer the entry
    fails the scorer's test, the count is the one obtained without the
    entry, and the score still divides by the length of the whole
    sequence, the question included.  (Question identifiers are pairwise
    distinct.) *)
Theorem unflagged_question_never_correct (qs : list Question) (q : Question)
  (m : gmap string string) (v : string) :
  q ∈ qs ->
  NoDup (fmap question_id qs) ->
  (forall a, a ∈ answers q -> is_correct a = false) ->
  isCounted qs (question_id q, v) = false
  /\ answeredCorrectly (<[question_id q := v]> m) q = false
  /\ correctCount qs (<[question_id q := v]> m)
     = correctCount qs (delete (question_id q) m)
  /\ score qs (<[question_id q := v]> m)
     = percentage (correctCount qs (delete (question_id q) m)) (length qs)
  /\ (1 <= length qs)%nat.
Proof.
  intros Hin Hnd Hflag.
  pose proof (correctAnswer_None q Hflag) as Hc.
  assert (H1 : isCounted qs (question_id q, v) = false).
  { unfold isCounted. simpl. rewrite (findQuestion_Some qs q Hin Hnd). simpl.
    rewrite Hc. reflexivity. }
  assert (H3 : correctCount qs (<[question_id q := v]> m)
               = correctCount qs (delete (question_id q) m)).
  { rewrite <- (insert_delete_eq m).
    rewrite correctCount_insert by apply lookup_delete_eq.
    now rewrite H1. }
  split; [exact H1|]. split.
  { rewrite answeredCorrectly_insert_eq, Hc. reflexivity. }
  split; [exact H3|]. split.
  { unfold score. now rewrite H3. }
  destruct qs; [now apply elem_of_nil in Hin|simpl; lia].
Qed.

Lemma unflagged_question_never_correct_witness :
  let q := mkQuestion "q2" [mkAnswer "a" false; mkAnswer "b" false] in
  let qs := [mkQuestion "q1" [mkAnswer "a" true; mkAnswer "b" false]; q;
             mkQuestion "q3" []] in
  correctCount qs (<["q2" := "a"]> {["q1" := "a"]}) = 1%nat
  /\ score qs (<["q2" := "a"]> {["q1" := "a"]}) = JS.of_Z 33.
Proof.
  intros q qs.
  assert (Hin : q ∈ qs) by (apply list_elem_of_further, list_elem_of_here).
  assert (Hnd : NoDup (fmap question_id qs)) by compute_done.
  assert (Hflag : forall a, a ∈ answers q -> is_correct a = false).
  { intros a Ha. simpl in Ha.
    repeat (apply elem_of_cons in Ha as [->|Ha]; [reflexivity|]).
    now apply elem_of_nil in Ha. }
  destruct (unflagged_question_never_correct qs q {["q1" := "a"]} "a"
              Hin Hnd Hflag) as (_ & _ & H3 & H4 & _).
  split.
  - etransitivity; [exact H3|]. vm_compute. reflexivity.
  - etransitivity; [exact H4|]. vm_compute. reflexivity.
Defined.

(** C5.  Selecting an answer records it for the current question only.
    After two selections on the same question the map holds the second
    identifier under the question's identifier, as if only the second
    selection had been made; the keys of the map are pairwise distinct and
    exactly one of them is the question's; the entries of the other
    questions and the question pointer are those from before. *)
Theorem select_answer_overwrites (mode : ExamMode) (a b : string)
  (st st1 st2 : state) :
  handleAnswerSelect mode a st = Some st1 ->
  handleAnswerSelect mode b st1 = Some st2 ->
  exists q,
    currentQuestion st = Some q
    /\ selectedAnswers st1 !! question_id q = Some a
    /\ selectedAnswers st2 !! question_id q = Some b
    /\ selectedAnswers st2 = <[question_id q := b]> (selectedAnswers st)
    /\ (forall k, k ≠ question_id q ->
          selectedAnswers st2 !! k = selectedAnswers st !! k)
    /\ NoDup (map_to_list (selectedAnswers st2)).*1
    /\ length (List.filter (fun kv => bool_decide (kv.1 = question_id q))
                 (map_to_list (selectedAnswers st2))) = 1%nat
    /\ currentQuestionIndex st1 = currentQuestionIndex st
    /\ currentQuestionIndex st2 = currentQuestionIndex st.
Proof.
  unfold handleAnswerSelect.
  destruct (currentQuestion st) as [q|] eqn:Q; [|discriminate].
  intros [= <-]. unfold currentQuestion in *. simpl. rewrite Q.
  intros [= <-]. simpl.
  exists q. split; [reflexivity|].
  split; [apply lookup_insert_eq|].
  split; [apply lookup_insert_eq|].
  split; [apply insert_insert_eq|].
  split.
  { intros k Hk. now rewrite !lookup_insert_ne. }
  split; [apply NoDup_fst_map_to_list|].
  split; [|auto].
  rewrite insert_insert_eq, <- (insert_delete_eq (selectedAnswers st)).
  rewrite (filter_length_perm _ _ _
             (map_to_list_insert _ _ b (lookup_delete_eq _ (question_id q)))).
  simpl. rewrite bool_decide_eq_true_2 by done. simpl.
  pose proof (key_filter_le
    ((question_id q, b) :: map_to_list (delete (question_id q) (selectedAnswers st)))
    (question_id q)) as H.
  assert (Hnd : NoDup ((question_id q, b)
                  :: map_to_list (delete (question_id q) (selectedAnswers st))).*1).
  { csimpl. apply NoDup_cons. split; [|apply NoDup_fst_map_to_list].
    intros Hin. apply list_elem_of_fmap in Hin as ([k' v'] & E & Hin).
    simpl in E. subst k'. apply elem_of_map_to_list in Hin.
    now rewrite lookup_delete_eq in Hin. }
  specialize (H Hnd). simpl in H.
  rewrite bool_decide_eq_true_2 in H by done. simpl in H.
  lia.
Qed.

Lemma select_answer_overwrites_witness :
  let st := component (sampleSession practice) in
  let st1 := default st (handleAnswerSelect practice "q10-a" st) in
  let st2 := default st1 (handleAnswerSelect practice "q10-b" st1) in
  handleAnswerSelect practice "q10-a" st = Some st1
  /\ handleAnswerSelect practice "q10-b" st1 = Some st2
  /\ exists q, currentQuestion st = Some q
       /\ selectedAnswers st2 !! question_id q = Some "q10-b"
       /\ currentQuestionIndex st2 = currentQuestionIndex st.
Proof.
  intros st st1 st2.
  assert (H1 : handleAnswerSelect practice "q10-a" st = Some st1)
    by (vm_compute; reflexivity).
  assert (H2 : handleAnswerSelect practice "q10-b" st1 = Some st2)
    by (vm_compute; reflexivity).
  split; [exact H1|]. split; [exact H2|].
  destruct (select_answer_overwrites _ _ _ _ _ _ H1 H2)
    as (q & Hq & _ & Hb & _ & _ & _ & _ & _ & Hi).
  exists q. auto.
Defined.

Lemma handlePreviousQuestion_answers (st : state) :
  selectedAnswers (handlePreviousQuestion st) = selectedAnswers st.
Proof. unfold handlePreviousQuestion. destruct (_ <? _)%nat; reflexivity. Qed.




(** C7.  When the source holds at least as many questions as the mode asks
    for, the loaded sequence has exactly 10 questions in practice and in
    learning mode and exactly 20 in a mock test, and no event of the session
    changes the sequence afterwards. *)
Theorem loaded_length_by_mode (mode : ExamMode) (sh : Shuffler)
  (src : DataSource) (rows : list QuestionRow) (newId : option string) :
  src = MockData rows \/ src = Backend (Some rows) ->
  (questionLimit mode <= length rows)%nat ->
  length (questions (mount mode sh src newId).1)
  = match mode with mock_test => 20%nat | practice | learning => 10%nat end
  /\ forall evs,
       questions (component (run mode (demoMode src)
                               (start (mount mode sh src newId).1) evs))
       = questions (mount mode sh src newId).1.
Proof.
  intros Hsrc Hlen. split.
  - rewrite mount_questions, fetchQuestions_length.
    destruct Hsrc as [-> | ->]; rewrite Nat.min_l by exact Hlen;
      destruct mode; reflexivity.
  - intros evs. now rewrite run_questions.
Qed.

Lemma loaded_length_by_mode_witness :
  (questionLimit practice <= length samplePool)%nat
  /\ length (questions (mount practice reverseShuffle (MockData samplePool)
                          (Some "mock-exam-1")).1) = 10%nat.
Proof.
  assert (H : (questionLimit practice <= length samplePool)%nat)
    by (vm_compute; lia).
  split; [exact H|].
  exact (proj1 (loaded_length_by_mode practice reverseShuffle
                  (MockData samplePool) samplePool (Some "mock-exam-1")
                  (or_introl eq_refl) H)).
Defined.

(** ** Learning mode *)

Lemma filter_notInsert_inserts (l : list effect) :
  Forall (fun e => isInsert e = true) l -> List.filter notInsert l = [].
Proof.
  induction 1 as [|e l He _ IH]; simpl; [reflexivity|].
  unfold notInsert at 1. now rewrite He.
Qed.

Lemma filter_notInsert_id (l : list effect) :
  Forall (fun e => isInsert e = false) l -> List.filter notInsert l = l.
Proof.
  induction 1 as [|e l He _ IH]; simpl; [reflexivity|].
  unfold notInsert at 1. rewrite He. simpl. now rewrite IH.
Qed.

Lemma handleSubmitExam_learning (demo : bool) (st : state) :
  Forall (fun e => isInsert e = false) (handleSubmitExam learning demo st).1.
Proof.
  unfold handleSubmitExam. simpl. destruct demo; simpl; repeat constructor.
Qed.

Lemma handleNextQuestion_learning (demo : bool) (st : state) :
  Forall (fun e => isInsert e = false) (handleNextQuestion learning demo st).1.2.
Proof.
  unfold handleNextQuestion. simpl.
  destruct (_ <? _)%Z; [constructor|].
  pose proof (handleSubmitExam_learning demo st) as H.
  now destruct (handleSubmitExam learning demo st).
Qed.

Lemma run_learning (demo : bool) (s : session) (evs : list event) :
  Forall (fun e => isInsert e = false) (log s) ->
  Forall (fun e => isInsert e = false) (log (run learning demo s evs)).
Proof.
  intros H0. induction evs as [|ev evs IH] using rev_ind; [exact H0|].
  rewrite run_snoc.
  destruct (step_log learning demo (run learning demo s evs) ev)
    as (effs & -> & Hc).
  apply Forall_app. split; [exact IH|].
  destruct Hc as [->|[(_ & _ & _ & ->)|[(_ & _ & T & _)
                 |[(id & sc & rest & _ & _ & ->)|(_ & ->)]]]].
  - constructor.
  - apply handleNextQuestion_learning.
  - discriminate T.
  - repeat constructor.
  - repeat constructor.
Qed.

(** The effects of a submission, the inserts left out, do not depend on the
    mode. *)
Lemma handleSubmitExam_modes (mode mode' : ExamMode) (demo : bool) (st : state) :
  is_Some (currentQuestion st) ->
  List.filter notInsert (handleSubmitExam mode demo st).1
  = List.filter notInsert (handleSubmitExam mode' demo st).1
  /\ (handleSubmitExam mode demo st).2 = (handleSubmitExam mode' demo st).2.
Proof.
  intros Hq.
  destruct (saveUnlessLearning_Some mode demo st Hq) as [saved S].
  destruct (saveUnlessLearning_Some mode' demo st Hq) as [saved' S'].
  pose proof (saveUnlessLearning_inserts _ _ _ _ S) as I.
  pose proof (saveUnlessLearning_inserts _ _ _ _ S') as I'.
  unfold handleSubmitExam. rewrite S, S'.
  destruct demo; simpl; rewrite !List.filter_app,
    (filter_notInsert_inserts _ I), (filter_notInsert_inserts _ I'); auto.
Qed.

(** C9.  In learning mode no response record is ever sent to the backend:
    no event of a learning session, advancing and submitting included, adds
    an insert to the log.  Apart from that the handlers act on the
    questions, the pointer and the recorded answers as they do in any other
    mode, and a submission computes and reports the same score and flag. *)
Theorem learning_never_persists (demo : bool) (mode : ExamMode) (st : state)
  (evs : list event) (a : string) :
  is_Some (currentQuestion st) ->
  (forall e, e ∈ log (run learning demo (start st) evs) -> isInsert e = false)
  /\ (exists l o,
        handleAnswerSelect learning a st = Some l
        /\ handleAnswerSelect mode a st = Some o
        /\ questions l = questions o
        /\ currentQuestionIndex l = currentQuestionIndex o
        /\ selectedAnswers l = selectedAnswers o)
  /\ (let '(l, el, sl) := handleNextQuestion learning demo st in
      let '(o, eo, so) := handleNextQuestion mode demo st in
      questions l = questions o
      /\ currentQuestionIndex l = currentQuestionIndex o
      /\ selectedAnswers l = selectedAnswers o
      /\ el = List.filter notInsert eo
      /\ sl = so)
  /\ (let '(el, sl) := handleSubmitExam learning demo st in
      let '(eo, so) := handleSubmitExam mode demo st in
      el = List.filter notInsert eo /\ sl = so).
Proof.
  intros Hq. split; [|split; [|split]].
  - apply Forall_forall, run_learning. constructor.
  - unfold handleAnswerSelect. destruct Hq as [q ->]. eauto 10.
  - pose proof (handleSubmitExam_modes learning mode demo st Hq) as [HE HS].
    pose proof (handleSubmitExam_learning demo st) as HL.
    destruct (saveUnlessLearning_Some mode demo st Hq) as [saved S].
    pose proof (saveUnlessLearning_inserts _ _ _ _ S) as I.
    unfold handleNextQuestion. rewrite S. simpl.
    destruct (_ <? _)%Z.
    + simpl. rewrite (filter_notInsert_inserts _ I). auto.
    + destruct (handleSubmitExam learning demo st) as [el sl].
      destruct (handleSubmitExam mode demo st) as [eo so]. simpl in *.
      rewrite List.filter_app, (filter_notInsert_inserts _ I). simpl.
      rewrite <- HE, (filter_notInsert_id _ HL). auto.
  - pose proof (handleSubmitExam_modes learning mode demo st Hq) as [HE HS].
    pose proof (handleSubmitExam_learning demo st) as HL.
    destruct (handleSubmitExam learning demo st) as [el sl].
    destruct (handleSubmitExam mode demo st) as [eo so]. simpl in *.
    rewrite <- HE, (filter_notInsert_id _ HL). auto.
Qed.

Lemma learning_never_persists_witness :
  let st := component (sampleSession learning) in
  is_Some (currentQuestion st)
  /\ forall e,
       e ∈ log (run learning false (start st)
                  (answerAll ["q10-b"; "q09-a"; "q08-b"; "q07-b"; "q06-b";
                              "q05-b"; "q04-b"; "q03-a"; "q02-a"; "q01-c"])) ->
       isInsert e = false.
Proof.
  intros st.
  assert (H : is_Some (currentQuestion st)) by (vm_compute; eauto).
  split; [exact H|].
  exact (proj1 (learning_never_persists false practice st
                  (answerAll ["q10-b"; "q09-a"; "q08-b"; "q07-b"; "q06-b";
                              "q05-b"; "q04-b"; "q03-a"; "q02-a"; "q01-c"])
                  "q10-a" H)).
Defined.






(** ** Submissions *)

Lemma count_app (p : effect -> bool) (l l' : list effect) :
  count p (l ++ l') = (count p l + count p l')%nat.
Proof. unfold count. now rewrite List.filter_app, length_app. Qed.

Lemma count_inserts (p : effect -> bool) (l : list effect) :
  (forall e, isInsert e = true -> p e = false) ->
  Forall (fun e => isInsert e = true) l -> count p l = 0%nat.
Proof.
  intros Hp. unfold count. induction 1 as [|e l He _ IH]; simpl; [reflexivity|].
  now rewrite (Hp e He).
Qed.

Lemma isUpdate_insert (e : effect) : isInsert e = true -> isUpdate e = false.
Proof. now destruct e. Qed.

Lemma isComplete_insert (e : effect) : isInsert e = true -> isComplete e = false.
Proof. now destruct e. Qed.

(** Every way a step can go. *)
Lemma step_cases (mode : ExamMode) (demo : bool) (s : session) (ev : event) :
  step mode demo s ev = s
  \/ (exists st', timeLeft st' = timeLeft (component s)
        /\ step mode demo s ev = after st' [] NotSubmitted s)
  \/ (ev = ClickNext /\ mounted s = true
      /\ step mode demo s ev
         = after (handleNextQuestion mode demo (component s)).1.1
                 (handleNextQuestion mode demo (component s)).1.2
                 (handleNextQuestion mode demo (component s)).2 s)
  \/ (ev = Tick /\ mounted s = true /\ timerRunning mode (component s) = true
      /\ step mode demo s ev
         = after (timerCallback mode demo (component s)).1.1
                 (timerCallback mode demo (component s)).1.2
                 (timerCallback mode demo (component s)).2 s)
  \/ (ev = ClickExit
      /\ step mode demo s ev
         = {| component := component s; mounted := false;
              inflight := inflight s; log := log s |})
  \/ (exists ok, ev = Settle ok /\ step mode demo s ev = settle ok s).
Proof.
  destruct ev as [a| | | | |ok]; simpl.
  - destruct (mounted s); simpl; [|now left].
    destruct (answerEnabled mode a (component s)); [|now left].
    destruct (handleAnswerSelect mode a (component s)) as [st'|] eqn:E;
      [|now left].
    right; left. exists st'. split; [|reflexivity].
    now apply handleAnswerSelect_frame in E.
  - destruct (mounted s); simpl; [|now left].
    destruct (nextEnabled mode (component s)); [|now left].
    destruct (handleNextQuestion mode demo (component s)) as [[st' effs] sub].
    right; right; left. auto.
  - destruct (mounted s); simpl; [|now left].
    destruct (previousEnabled (component s)); [|now left].
    right; left. eexists. split; [|reflexivity].
    unfold handlePreviousQuestion. now destruct (_ <? _)%nat.
  - destruct (mounted s); simpl; [|now left].
    destruct (negb (loading (component s))); [|now left].
    right; right; right; right; left. auto.
  - destruct (mounted s); simpl; [|now left].
    destruct (timerRunning mode (component s)); [|now left].
    destruct (timerCallback mode demo (component s)) as [[st' effs] sub].
    right; right; right; left. auto.
  - right; right; right; right; right. eauto.
Qed.

(** A submission issues at most one update of the exam row, and exactly one
    when a backend is configured and the current question exists. *)
Lemma handleSubmitExam_updates (mode : ExamMode) (demo : bool) (st : state) :
  (count isUpdate (handleSubmitExam mode demo st).1 <= 1)%nat
  /\ (demo = false -> is_Some (currentQuestion st) ->
      count isUpdate (handleSubmitExam mode demo st).1 = 1%nat
      /\ (handleSubmitExam mode demo st).2
         = Awaiting (examId st) (score (questions st) (selectedAnswers st))).
Proof.
  unfold handleSubmitExam.
  destruct (saveUnlessLearning mode demo st) as [saved|] eqn:S.
  - pose proof (count_inserts isUpdate saved isUpdate_insert
                  (saveUnlessLearning_inserts _ _ _ _ S)) as C.
    destruct demo; simpl; rewrite count_app, C; simpl.
    + split; [unfold count; simpl; lia|discriminate].
    + split; [unfold count; simpl; lia|]. intros _ _. split; reflexivity.
  - simpl. split; [unfold count; simpl; lia|].
    intros _ Hq. apply (saveUnlessLearning_Some mode demo) in Hq.
    rewrite S in Hq. now destruct Hq.
Qed.

(** Without a backend a submission either fails before scoring or calls
    [onExamComplete] once and ends the component. *)
Lemma handleSubmitExam_demo (mode : ExamMode) (st : state) :
  let r := handleSubmitExam mode true st in
  (r.2 = Completed /\ count isComplete r.1 = 1%nat)
  \/ (r.2 = NotSubmitted /\ count isComplete r.1 = 0%nat).
Proof.
  unfold handleSubmitExam.
  destruct (saveUnlessLearning mode true st) as [saved|] eqn:S; simpl.
  - left. split; [reflexivity|].
    rewrite count_app, (count_inserts isComplete saved isComplete_insert
                          (saveUnlessLearning_inserts _ _ _ _ S)).
    reflexivity.
  - right. split; reflexivity.
Qed.

Lemma handleNextQuestion_demo (mode : ExamMode) (st : state) :
  let r := handleNextQuestion mode true st in
  (r.2 = Completed /\ count isComplete r.1.2 = 1%nat)
  \/ (r.2 = NotSubmitted /\ count isComplete r.1.2 = 0%nat).
Proof.
  unfold handleNextQuestion.
  destruct (saveUnlessLearning mode true st) as [saved|] eqn:S; simpl;
    [|right; split; reflexivity].
  pose proof (count_inserts isComplete saved isComplete_insert
                (saveUnlessLearning_inserts _ _ _ _ S)) as C.
  destruct (_ <? _)%Z; simpl; [right; split; [reflexivity|exact C]|].
  destruct (handleSubmitExam_demo mode st) as [[H1 H2]|[H1 H2]];
    destruct (handleSubmitExam mode true st) as [effs sub]; simpl in *;
    rewrite count_app, C, H2; auto.
Qed.

Lemma timerCallback_demo (mode : ExamMode) (st : state) :
  let r := timerCallback mode true st in
  (r.2 = Completed /\ count isComplete r.1.2 = 1%nat)
  \/ (r.2 = NotSubmitted /\ count isComplete r.1.2 = 0%nat).
Proof.
  unfold timerCallback. destruct (_ <=? _)%nat; simpl;
    [|right; split; reflexivity].
  destruct (handleSubmitExam_demo mode st) as [[H1 H2]|[H1 H2]];
    destruct (handleSubmitExam mode true st) as [effs sub]; simpl in *; auto.
Qed.

Lemma after_demo (st' : state) (effs : list effect) (sub : submission)
  (s : session) :
  demoInvariant s -> mounted s = true ->
  (sub = Completed /\ count isComplete effs = 1%nat)
  \/ (sub = NotSubmitted /\ count isComplete effs = 0%nat) ->
  demoInvariant (after st' effs sub s).
Proof.
  intros [I1 I2] M H. rewrite M in I2. unfold demoInvariant, after. simpl.
  rewrite count_app, I2, M.
  destruct H as [[-> ->]|[-> ->]]; auto.
Qed.

Lemma step_demo (mode : ExamMode) (s : session) (ev : event) :
  demoInvariant s -> demoInvariant (step mode true s ev).
Proof.
  intros I.
  destruct (step_cases mode true s ev)
    as [->|[(st' & _ & ->)|[(_ & M & ->)|[(_ & M & _ & ->)|[(_ & ->)
       |(ok & _ & ->)]]]]].
  - exact I.
  - destruct I as [I1 I2]. unfold demoInvariant, after. simpl.
    now rewrite app_nil_r.
  - apply after_demo; [exact I|exact M|apply handleNextQuestion_demo].
  - apply after_demo; [exact I|exact M|apply timerCallback_demo].
  - destruct I as [I1 I2]. split; [exact I1|]. simpl.
    destruct (mounted s); lia.
  - unfold settle. destruct I as [I1 I2]. rewrite I1. now split.
Qed.

Lemma step_timer (mode : ExamMode) (demo : bool) (s : session) (ev : event) :
  ev = Tick \/ (exists ok, ev = Settle ok) ->
  timerInvariant s -> timerInvariant (step mode demo s ev).
Proof.
  intros Hev I.
  destruct (step_cases mode demo s ev)
    as [->|[(st' & T & ->)|[(-> & _)|[(_ & M & R & ->)|[(-> & _)
       |(ok & _ & ->)]]]]].
  - exact I.
  - unfold timerInvariant, after. simpl. now rewrite app_nil_r, T.
  - destruct Hev as [?|[? ?]]; discriminate.
  - unfold timerRunning in R. apply andb_true_iff in R as [_ R].
    apply Nat.ltb_lt in R.
    destruct I as [I|[_ I]]; [|lia].
    unfold timerInvariant, after. simpl. rewrite count_app, I.
    unfold timerCallback. destruct (_ <=? _)%nat.
    + pose proof (proj1 (handleSubmitExam_updates mode demo (component s))) as U.
      destruct (handleSubmitExam mode demo (component s)) as [effs sub].
      simpl in *. lia.
    + simpl. now left.
  - destruct Hev as [?|[? ?]]; discriminate.
  - unfold settle. destruct (inflight s) as [|[id sc] rest]; [exact I|].
    unfold timerInvariant in *.
    destruct ok; simpl; rewrite count_app; unfold count at 2 4; simpl;
      rewrite Nat.add_0_r; exact I.
Qed.

(** C3, as stated, fails.  In the mock test above the manual submission and
    the expiry of the countdown each run the scoring and issue an update of
    the exam row: the session is finalised twice, two submissions are in
    flight, and [onExamComplete] is called twice once they settle. *)
Lemma timer_expiry_during_manual_submit :
  let s := run mock_test false (sampleSession mock_test) lateFinish in
  let s' := step mock_test false s Tick in
  count isUpdate (log s) = 1%nat
  /\ timeLeft (component s) = 1%nat
  /\ mounted s = true
  /\ count isUpdate (log s') = 2%nat
  /\ length (inflight s') = 2%nat
  /\ count isComplete
       (log (run mock_test false s' [Settle true; Settle true])) = 2%nat
  /\ ~ (count isUpdate (log s') <= 1)%nat.
Proof.
  intros s s'.
  assert (H : count isUpdate (log s') = 2%nat) by (vm_compute; reflexivity).
  repeat split; try (vm_compute; reflexivity).
  rewrite H. lia.
Qed.

Lemma run_demo (mode : ExamMode) (s : session) (evs : list event) :
  demoInvariant s -> demoInvariant (run mode true s evs).
Proof.
  intros H. induction evs as [|ev evs IH] using rev_ind; [exact H|].
  rewrite run_snoc. now apply step_demo.
Qed.

Lemma run_timer (mode : ExamMode) (demo : bool) (s : session)
  (evs : list event) :
  (forall ev, ev ∈ evs -> ev = Tick \/ exists ok, ev = Settle ok) ->
  timerInvariant s -> timerInvariant (run mode demo s evs).
Proof.
  intros Hevs H. induction evs as [|ev evs IH] using rev_ind; [exact H|].
  rewrite run_snoc. apply step_timer.
  - apply Hevs. apply elem_of_app. right. apply list_elem_of_here.
  - apply IH. intros ev' Hin. apply Hevs. apply elem_of_app. now left.
Qed.

(** C3, amended.  Without a backend nothing is awaited and a session calls
    [onExamComplete] at most once.  With a backend the countdown by itself
    finalises a session at most once.  But a submission is not guarded: as
    long as the component is mounted, an expiring countdown and a click on
    Finish each issue one more update of the exam row, whatever has been
    submitted before and is still in flight. *)
Theorem submission_not_guarded (mode : ExamMode) :
  (forall st evs,
     (count isComplete (log (run mode true (start st) evs)) <= 1)%nat)
  /\ (forall st evs,
        (forall ev, ev ∈ evs -> ev = Tick \/ exists ok, ev = Settle ok) ->
        (count isUpdate (log (run mode false (start st) evs)) <= 1)%nat)
  /\ (forall s,
        mounted s = true ->
        is_Some (currentQuestion (component s)) ->
        timerRunning mode (component s) = true ->
        (timeLeft (component s) <= 1)%nat ->
        count isUpdate (log (step mode false s Tick))
        = (count isUpdate (log s) + 1)%nat
        /\ length (inflight (step mode false s Tick))
           = (length (inflight s) + 1)%nat
        /\ timeLeft (component (step mode false s Tick)) = 0%nat)
  /\ (forall s,
        mounted s = true ->
        is_Some (currentQuestion (component s)) ->
        nextEnabled mode (component s) = true ->
        (currentQuestionIndex (component s) + 1
         = length (questions (component s)))%nat ->
        count isUpdate (log (step mode false s ClickNext))
        = (count isUpdate (log s) + 1)%nat
        /\ length (inflight (step mode false s ClickNext))
           = (length (inflight s) + 1)%nat).
Proof.
  split; [|split; [|split]].
  - intros st evs.
    assert (I : demoInvariant (run mode true (start st) evs)).
    { apply run_demo. split; reflexivity. }
    destruct I as [_ I]. destruct (mounted _); lia.
  - intros st evs Hevs.
    assert (I : timerInvariant (run mode false (start st) evs)).
    { apply run_timer; [exact Hevs|]. now left. }
    destruct I as [I|[I _]]; lia.
  - intros s M Hq R T. simpl. rewrite M, R. simpl.
    unfold timerCallback. apply Nat.leb_le in T. rewrite T.
    destruct (proj2 (handleSubmitExam_updates mode false (component s))
                eq_refl Hq) as [U A].
    destruct (handleSubmitExam mode false (component s)) as [effs sub].
    simpl in *. rewrite A, count_app, U, length_app. simpl. auto.
  - intros s M Hq N L. simpl. rewrite M, N. simpl.
    unfold handleNextQuestion.
    destruct (saveUnlessLearning_Some mode false (component s) Hq) as [saved S].
    rewrite S.
    destruct (_ <? _)%Z eqn:C; [apply Z.ltb_lt in C; lia|].
    destruct (proj2 (handleSubmitExam_updates mode false (component s))
                eq_refl Hq) as [U A].
    destruct (handleSubmitExam mode false (component s)) as [effs sub].
    simpl in *. rewrite A, !count_app, U, length_app. simpl.
    rewrite (count_inserts isUpdate saved isUpdate_insert
               (saveUnlessLearning_inserts _ _ _ _ S)).
    auto.
Qed.

Lemma submission_not_guarded_witness :
  let s := run mock_test false (sampleSession mock_test) lateFinish in
  count isUpdate (log (step mock_test false s Tick))
  = (count isUpdate (log s) + 1)%nat
  /\ length (inflight s) = 1%nat.
Proof.
  intros s.
  assert (M : mounted s = true) by (vm_compute; reflexivity).
  assert (Hq : is_Some (currentQuestion (component s))) by (vm_compute; eauto).
  assert (R : timerRunning mock_test (component s) = true)
    by (vm_compute; reflexivity).
  assert (T : (timeLeft (component s) <= 1)%nat) by (vm_compute; lia).
  destruct (submission_not_guarded mock_test) as (_ & _ & H & _).
  split; [exact (proj1 (H s M Hq R T))|].
  vm_compute. reflexivity.
Defined.

(** ** Response records *)

Lemma saveResponse_savedFor (demo : bool) (st : state) (q : Question) :
  currentQuestion st = Some q ->
  saveResponse demo st = Some (savedFor demo st q).
Proof.
  intros Hq. unfold saveResponse, savedFor. rewrite Hq.
  destruct (selectedAnswers st !! question_id q) as [a|]; [|reflexivity].
  destruct (truthy a), demo; reflexivity.
Qed.

Lemma savedFor_elem (demo : bool) (st : state) (q : Question) (e : effect) :
  e ∈ savedFor demo st q <->
  demo = false
  /\ exists a, selectedAnswers st !! question_id q = Some a /\ a ≠ ""
               /\ e = responseRecord st q a.
Proof.
  unfold savedFor.
  destruct (selectedAnswers st !! question_id q) as [a|].
  - unfold truthy. destruct (decide (a ≠ "")) as [Ha|Ha].
    + rewrite bool_decide_eq_true_2 by exact Ha. destruct demo; simpl.
      * rewrite elem_of_nil. split; [tauto|]. intros [? _]. discriminate.
      * rewrite list_elem_of_singleton. split.
        -- intros ->. split; [reflexivity|]. exists a. auto.
        -- intros (_ & a' & [= <-] & _ & ->). reflexivity.
    + rewrite bool_decide_eq_false_2 by exact Ha. simpl.
      rewrite elem_of_nil. split; [tauto|].
      intros (_ & a' & [= <-] & Ha' & _). contradiction.
  - rewrite elem_of_nil. split; [tauto|]. intros (_ & a & ? & _). discriminate.
Qed.

(** The effects of an advance outside learning mode: the saved response,
    and at the last question the effects of the submission after it. *)
Lemma handleNextQuestion_effects (mode : ExamMode) (demo : bool) (st : state)
  (q : Question) :
  mode ≠ learning -> currentQuestion st = Some q ->
  (handleNextQuestion mode demo st).1.2
  = if (Z.of_nat (currentQuestionIndex st)
          <? Z.of_nat (length (questions st)) - 1)%Z
    then savedFor demo st q
    else savedFor demo st q ++ (handleSubmitExam mode demo st).1.
Proof.
  intros Hm Hq. unfold handleNextQuestion, saveUnlessLearning.
  destruct (decide (mode = learning)); [contradiction|].
  rewrite (saveResponse_savedFor demo st q Hq).
  destruct (_ <? _)%Z; [reflexivity|].
  now destruct (handleSubmitExam mode demo st).
Qed.

Lemma handleSubmitExam_effects (mode : ExamMode) (demo : bool) (st : state)
  (q : Question) :
  mode ≠ learning -> currentQuestion st = Some q ->
  exists fin, Forall (fun e => isInsert e = false) fin
    /\ (handleSubmitExam mode demo st).1 = savedFor demo st q ++ fin.
Proof.
  intros Hm Hq. unfold handleSubmitExam, saveUnlessLearning.
  destruct (decide (mode = learning)); [contradiction|].
  rewrite (saveResponse_savedFor demo st q Hq).
  destruct demo; simpl; eexists; (split; [|reflexivity]); repeat constructor.
Qed.

Lemma insert_in_effects (mode : ExamMode) (demo : bool) (st : state)
  (q : Question) (e : effect) :
  mode ≠ learning -> currentQuestion st = Some q -> isInsert e = true ->
  e ∈ (handleNextQuestion mode demo st).1.2 <-> e ∈ savedFor demo st q.
Proof.
  intros Hm Hq He. rewrite (handleNextQuestion_effects mode demo st q Hm Hq).
  destruct (_ <? _)%Z; [reflexivity|].
  destruct (handleSubmitExam_effects mode demo st q Hm Hq) as (fin & F & ->).
  rewrite !elem_of_app. split; [|tauto].
  intros [H|[H|H]]; try exact H.
  rewrite Forall_forall in F. specialize (F e H). congruence.
Qed.

(** C8, as stated, fails.  Without a backend an advance over an answered
    question persists nothing; with a backend a question that is advanced
    over twice (after going back) gets two response records. *)
Lemma advance_persists_per_advance :
  (let d := run practice true (demoSession practice)
              [ClickAnswer "q10-b"; ClickNext] in
   selectedAnswers (component d) !! "q10" = Some "q10-b" /\ log d = [])
  /\ (let l := run practice false (sampleSession practice)
                 [ClickAnswer "q10-b"; ClickNext; ClickPrevious; ClickNext] in
      count (isInsertFor "q10") (log l) = 2%nat
      /\ ~ count (isInsertFor "q10") (log l) = 1%nat).
Proof.
  split; [split; vm_compute; reflexivity|].
  intros l.
  assert (H : count (isInsertFor "q10") (log l) = 2%nat)
    by (vm_compute; reflexivity).
  split; [exact H|]. rewrite H. discriminate.
Qed.

(** At the last question the response is saved twice: once by
    [handleNextQuestion] and once more by the [handleSubmitExam] it calls. *)
Example finish_saves_twice :
  count (isInsertFor "q01")
    (log (run practice false (sampleSession practice)
            (answerAll ["q10-b"; "q09-b"; "q08-b"; "q07-b"; "q06-b"; "q05-b";
                        "q04-b"; "q03-a"; "q02-a"; "q01-c"]))) = 2%nat.
Proof. vm_compute. reflexivity. Qed.

(** C8, amended.  Outside learning mode an advance sends a response record
    for the current question exactly when a backend is configured and a
    non-empty answer identifier is recorded for the question; every record
    it sends is the one of the current question with its recorded answer
    and the correctness of that answer; and an advance that is not at the
    last question sends that record once and nothing else.  Inserts are
    issued per advance and are not deduplicated. *)
Theorem advance_persists_answer (mode : ExamMode) (demo : bool) (st : state)
  (q : Question) :
  mode ≠ learning ->
  currentQuestion st = Some q ->
  let effs := (handleNextQuestion mode demo st).1.2 in
  ((exists e, e ∈ effs /\ isInsertFor (question_id q) e = true) <->
   (demo = false
    /\ exists a, selectedAnswers st !! question_id q = Some a /\ a ≠ ""))
  /\ (forall e, e ∈ effs -> isInsert e = true ->
        exists a, selectedAnswers st !! question_id q = Some a
                  /\ e = responseRecord st q a)
  /\ ((currentQuestionIndex st + 1 < length (questions st))%nat ->
      effs = match selectedAnswers st !! question_id q with
             | Some a =>
                 if truthy a && negb demo then [responseRecord st q a] else []
             | None => []
             end).
Proof.
  intros Hm Hq effs. split; [|split].
  - split.
    + intros (e & Hin & He).
      assert (Hi : isInsert e = true) by (destruct e; done).
      apply (insert_in_effects mode demo st q e Hm Hq Hi) in Hin.
      apply savedFor_elem in Hin as (Hd & a & Ha & Hne & _). eauto.
    + intros (Hd & a & Ha & Hne). exists (responseRecord st q a). split.
      * apply (insert_in_effects mode demo st q (responseRecord st q a) Hm Hq
                 eq_refl).
        apply savedFor_elem. eauto 10.
      * simpl. now apply bool_decide_eq_true_2.
  - intros e Hin Hi.
    apply (insert_in_effects mode demo st q e Hm Hq Hi) in Hin.
    apply savedFor_elem in Hin as (_ & a & Ha & _ & ->). eauto.
  - intros Hlt. unfold effs.
    rewrite (handleNextQuestion_effects mode demo st q Hm Hq).
    destruct (_ <? _)%Z eqn:C; [reflexivity|]. apply Z.ltb_ge in C. lia.
Qed.

Lemma advance_persists_answer_witness :
  let st := component (run practice false (sampleSession practice)
                         [ClickAnswer "q10-b"]) in
  let q := mkQuestion "q10" [mkAnswer "q10-c" false; mkAnswer "q10-b" true;
                             mkAnswer "q10-a" false] in
  practice ≠ learning
  /\ currentQuestion st = Some q
  /\ (handleNextQuestion practice false st).1.2
     = [InsertResponse "exam-1" "q10" "q10-b" true].
Proof.
  intros st q.
  assert (Hm : practice ≠ learning) by discriminate.
  assert (Hq : currentQuestion st = Some q) by (vm_compute; reflexivity).
  split; [exact Hm|]. split; [exact Hq|].
  destruct (advance_persists_answer practice false st q Hm Hq) as (_ & _ & H).
  etransitivity; [apply H; vm_compute; lia|].
  vm_compute. reflexivity.
Defined.

(** * Further properties of the code *)

(** ** Recorded answers *)

Lemma handleNextQuestion_answers (mode : ExamMode) (demo : bool) (st : state) :
  selectedAnswers (handleNextQuestion mode demo st).1.1 = selectedAnswers st.
Proof.
  unfold handleNextQuestion.
  destruct (saveUnlessLearning mode demo st); [|reflexivity].
  destruct (_ <? _)%Z; [reflexivity|].
  now destruct (handleSubmitExam mode demo st).
Qed.

Lemma answerEnabled_current (mode : ExamMode) (a : string) (st : state) :
  answerEnabled mode a st = true ->
  exists q, currentQuestion st = Some q /\ q ∈ questions st
            /\ a ∈ answer_id <$> answers q.
Proof.
  unfold answerEnabled. rewrite !andb_true_iff. intros [[_ E] _].
  destruct (currentQuestion st) as [q|] eqn:Q; [|discriminate].
  exists q. split; [reflexivity|]. split.
  - unfold currentQuestion in Q. now apply list_elem_of_lookup_2 in Q.
  - simpl in E. apply existsb_exists in E as (x & Hx & Ex).
    apply bool_decide_eq_true_1 in Ex. subst a.
    apply list_elem_of_fmap. exists x. split; [reflexivity|].
    now apply list_elem_of_In.
Qed.

(** What a step does to the recorded answers: nothing, or the insertion of
    an offered answer under the identifier of the current question. *)
Lemma step_answers (mode : ExamMode) (demo : bool) (s : session) (ev : event) :
  selectedAnswers (component (step mode demo s ev))
  = selectedAnswers (component s)
  \/ exists a q, ev = ClickAnswer a
       /\ currentQuestion (component s) = Some q
       /\ q ∈ questions (component s)
       /\ a ∈ answer_id <$> answers q
       /\ currentQuestionIndex (component (step mode demo s ev))
          = currentQuestionIndex (component s)
       /\ selectedAnswers (component (step mode demo s ev))
          = <[question_id q := a]> (selectedAnswers (component s)).
Proof.
  destruct (step_component mode demo s ev)
    as [E|[(a & Ea & En & E)|[(_ & _ & E)|[(_ & _ & E)|(_ & _ & E)]]]].
  - left. now rewrite E.
  - right. destruct (answerEnabled_current mode a _ En) as (q & Q & Qin & Ha).
    exists a, q. unfold handleAnswerSelect in E. rewrite Q in E.
    injection E as E. rewrite <- E. simpl. auto 10.
  - left. rewrite E. apply handleNextQuestion_answers.
  - left. rewrite E. apply handlePreviousQuestion_answers.
  - left. rewrite E. apply timerCallback_frame.
Qed.

Lemma step_recorded (mode : ExamMode) (demo : bool) (s : session) (ev : event) :
  recordedFromSession (component s) ->
  recordedFromSession (component (step mode demo s ev)).
Proof.
  intros R k v. unfold recordedFromSession in R. rewrite step_questions.
  destruct (step_answers mode demo s ev)
    as [->|(a & q & _ & _ & Qin & Ha & _ & ->)]; [apply R|].
  destruct (decide (question_id q = k)) as [<-|Hne].
  - rewrite lookup_insert_eq. intros [= <-]. eauto.
  - rewrite lookup_insert_ne by exact Hne. apply R.
Qed.

Lemma run_recorded (mode : ExamMode) (demo : bool) (s : session)
  (evs : list event) :
  recordedFromSession (component s) ->
  recordedFromSession (component (run mode demo s evs)).
Proof.
  intros H. induction evs as [|ev evs IH] using rev_ind; [exact H|].
  rewrite run_snoc. now apply step_recorded.
Qed.

Lemma mount_answers (mode : ExamMode) (sh : Shuffler) (src : DataSource)
  (newId : option string) :
  selectedAnswers (mount mode sh src newId).1 = ∅.
Proof. unfold mount. destruct src as [rows|[rows|]], newId; reflexivity. Qed.

Lemma recorded_count_le (mode : ExamMode) (sh : Shuffler)
  (src : DataSource) (newId : option string) (evs : list event) :
  let st := component (run mode (demoMode src)
                         (start (mount mode sh src newId).1) evs) in
  recordedFromSession st -> (answeredCount st <= length (questions st))%nat.
Proof.
  intros st R. unfold answeredCount.
  rewrite <- (length_fmap fst), <- (length_fmap question_id (questions st)).
  apply submseteq_length, NoDup_submseteq; [apply NoDup_fst_map_to_list|].
  intros k Hk. apply list_elem_of_fmap in Hk as ([k' v] & -> & Hkv).
  apply elem_of_map_to_list in Hkv. simpl.
  destruct (R _ _ Hkv) as (q & Hq & <- & _).
  apply list_elem_of_fmap. eauto.
Qed.

Lemma mount_recorded (mode : ExamMode) (sh : Shuffler)
  (src : DataSource) (newId : option string) (evs : list event) :
  recordedFromSession
    (component (run mode (demoMode src) (start (mount mode sh src newId).1) evs)).
Proof.
  apply run_recorded. intros k v. simpl. rewrite mount_answers.
  now rewrite lookup_empty.
Qed.

(** X1.  Whatever the learner does, every entry of the chosen-answer map
    belongs to the session: its key is the identifier of one of the
    session's questions and its value the identifier of one of that
    question's answers.  So the "answered" counter never exceeds the number
    of questions. *)
Theorem recorded_answers_belong_to_session (mode : ExamMode) (sh : Shuffler)
  (src : DataSource) (newId : option string) (evs : list event) :
  let st := component (run mode (demoMode src)
                         (start (mount mode sh src newId).1) evs) in
  recordedFromSession st
  /\ (answeredCount st <= length (questions st))%nat.
Proof.
  intros st. split; [apply mount_recorded|].
  apply recorded_count_le, mount_recorded.
Qed.







(** ** The exam identifier *)

Lemma handleSubmitExam_carries (mode : ExamMode) (demo : bool) (st : state) :
  Forall (carries (examId st)) (handleSubmitExam mode demo st).1
  /\ match (handleSubmitExam mode demo st).2 with
     | Awaiting id _ => id = examId st
     | _ => True
     end.
Proof.
  unfold handleSubmitExam, saveUnlessLearning, saveResponse.
  destruct (decide (mode = learning)).
  - destruct demo; simpl; split; auto; repeat constructor; now right.
  - destruct (currentQuestion st) as [q|];
      [|split; [repeat constructor; now left|exact I]].
    destruct (selectedAnswers st !! question_id q) as [a|].
    + destruct (negb (truthy a)), demo; simpl; split; auto;
        repeat constructor; now right.
    + destruct demo; simpl; split; auto; repeat constructor; now right.
Qed.

Lemma handleNextQuestion_carries (mode : ExamMode) (demo : bool) (st : state) :
  Forall (carries (examId st)) (handleNextQuestion mode demo st).1.2
  /\ examId (handleNextQuestion mode demo st).1.1 = examId st
  /\ match (handleNextQuestion mode demo st).2 with
     | Awaiting id _ => id = examId st
     | _ => True
     end.
Proof.
  pose proof (handleSubmitExam_carries mode demo st) as [F A].
  unfold handleNextQuestion.
  destruct (saveUnlessLearning mode demo st) as [saved|] eqn:S;
    [|simpl; auto].
  assert (Fs : Forall (carries (examId st)) saved).
  { unfold saveUnlessLearning, saveResponse in S.
    destruct (decide (mode = learning)); [injection S as <-; constructor|].
    destruct (currentQuestion st) as [q|]; [|discriminate].
    destruct (selectedAnswers st !! question_id q) as [a|];
      [|injection S as <-; constructor].
    destruct (negb (truthy a)), demo; injection S as <-;
      repeat constructor; now right. }
  destruct (_ <? _)%Z; [simpl; auto|].
  destruct (handleSubmitExam mode demo st) as [effs sub]. simpl in *.
  split; [now apply Forall_app|auto].
Qed.

Lemma timerCallback_carries (mode : ExamMode) (demo : bool) (st : state) :
  Forall (carries (examId st)) (timerCallback mode demo st).1.2
  /\ examId (timerCallback mode demo st).1.1 = examId st
  /\ match (timerCallback mode demo st).2 with
     | Awaiting id _ => id = examId st
     | _ => True
     end.
Proof.
  pose proof (handleSubmitExam_carries mode demo st) as [F A].
  unfold timerCallback. destruct (_ <=? _)%nat; [|simpl; auto].
  destruct (handleSubmitExam mode demo st) as [effs sub]. simpl in *. auto.
Qed.

Lemma after_oneExam (id : string) (st' : state) (effs : list effect)
  (sub : submission) (s : session) :
  oneExam id s -> examId st' = id -> Forall (carries id) effs ->
  match sub with Awaiting id' _ => id' = id | _ => True end ->
  oneExam id (after st' effs sub s).
Proof.
  intros (E & L & P) E' F A. unfold oneExam, after. simpl.
  split; [exact E'|]. split; [now apply Forall_app|].
  destruct sub; try exact P. apply Forall_app. split; [exact P|].
  repeat constructor. exact A.
Qed.

Lemma step_oneExam (id : string) (mode : ExamMode) (demo : bool) (s : session)
  (ev : event) :
  oneExam id s -> oneExam id (step mode demo s ev).
Proof.
  intros Inv. pose proof Inv as (E & L & P).
  destruct ev as [a| | | | |ok]; simpl.
  - destruct (mounted s); simpl; [|exact Inv].
    destruct (answerEnabled mode a (component s)); [|exact Inv].
    destruct (handleAnswerSelect mode a (component s)) as [st'|] eqn:H;
      [|exact Inv].
    apply after_oneExam; try exact Inv; try apply Forall_nil_2; try exact I.
    unfold handleAnswerSelect in H.
    destruct (currentQuestion (component s)); [|discriminate].
    injection H as <-. exact E.
  - destruct (mounted s); simpl; [|exact Inv].
    destruct (nextEnabled mode (component s)); [|exact Inv].
    pose proof (handleNextQuestion_carries mode demo (component s))
      as (F & E' & A).
    destruct (handleNextQuestion mode demo (component s)) as [[st' effs] sub].
    simpl in *. rewrite E in *. now apply after_oneExam.
  - destruct (mounted s); simpl; [|exact Inv].
    destruct (previousEnabled (component s)); [|exact Inv].
    apply after_oneExam; try exact Inv; try apply Forall_nil_2; try exact I.
    unfold handlePreviousQuestion. now destruct (_ <? _)%nat.
  - destruct (mounted s); simpl; [|exact Inv].
    destruct (negb (loading (component s))); exact Inv.
  - destruct (mounted s); simpl; [|exact Inv].
    destruct (timerRunning mode (component s)); [|exact Inv].
    pose proof (timerCallback_carries mode demo (component s)) as (F & E' & A).
    destruct (timerCallback mode demo (component s)) as [[st' effs] sub].
    simpl in *. rewrite E in *. now apply after_oneExam.
  - unfold settle. destruct (inflight s) as [|[id' sc] rest] eqn:Q; [exact Inv|].
    apply Forall_cons in P as [Hid Hrest]. simpl in Hid.
    destruct ok; (split; [exact E|]); simpl;
      (split; [apply Forall_app; split; [exact L|]|exact Hrest]).
    + apply Forall_cons_2; [now left|].
      apply Forall_cons_2; [right; simpl; now rewrite Hid|apply Forall_nil_2].
    + apply Forall_cons_2; [now left|apply Forall_nil_2].
Qed.

Lemma mount_examId (mode : ExamMode) (sh : Shuffler) (src : DataSource)
  (newId : option string) :
  examId (mount mode sh src newId).1 = default "" newId.
Proof. unfold mount. destruct src as [rows|[rows|]], newId; reflexivity. Qed.


(** ** What the loader delivers *)

Lemma take_min_length {A} (n : nat) (l : list A) :
  take (Nat.min n (length l)) l = take n l.
Proof.
  destruct (Nat.le_ge_cases n (length l)) as [H|H].
  - now rewrite Nat.min_l.
  - rewrite Nat.min_r by exact H. now rewrite firstn_all, take_ge.
Qed.

Lemma mount_questions_rows (mode : ExamMode) (sh : Shuffler) (src : DataSource)
  (rows : list QuestionRow) (newId : option string) :
  src = MockData rows \/ src = Backend (Some rows) ->
  questions (mount mode sh src newId).1
  = shuffled sh (take (questionLimit mode) rows).
Proof.
  intros [-> | ->]; rewrite mount_questions; simpl;
    [now rewrite take_min_length|reflexivity].
Qed.

Lemma filter_perm {A} (p : A -> bool) (l l' : list A) :
  l ≡ₚ l' -> List.filter p l ≡ₚ List.filter p l'.
Proof.
  induction 1 as [|x l l' _ IH|x y l|l l' l'' _ IH1 _ IH2]; simpl.
  - reflexivity.
  - destruct (p x); [now constructor|exact IH].
  - destruct (p x), (p y); try reflexivity. apply perm_swap.
  - now transitivity (List.filter p l').
Qed.

Lemma find_filter {A} (p : A -> bool) (l : list A) :
  List.find p l = head (List.filter p l).
Proof.
  induction l as [|x l IH]; simpl; [reflexivity|].
  destruct (p x); [reflexivity|exact IH].
Qed.

(** X4.  When the source answers, the session's questions are the first
    [limit] rows of the source in some order (10 rows, 20 for a mock test,
    all of them when there are fewer): the identifiers are a permutation of
    those rows' identifiers, each question carries the answers of its row in
    some order (none when the row has no answer list), and pairwise distinct
    row identifiers give pairwise distinct question identifiers. *)
Theorem loaded_questions_are_the_first_rows (mode : ExamMode) (sh : Shuffler)
  (src : DataSource) (rows : list QuestionRow) (newId : option string) :
  src = MockData rows \/ src = Backend (Some rows) ->
  let qs := questions (mount mode sh src newId).1 in
  let used := take (questionLimit mode) rows in
  fmap question_id qs ≡ₚ fmap row_id used
  /\ (forall q, q ∈ qs ->
        exists r, r ∈ used /\ question_id q = row_id r
                  /\ answers q ≡ₚ default [] (row_answers r))
  /\ (NoDup (fmap row_id rows) -> NoDup (fmap question_id qs)).
Proof.
  intros Hsrc qs used.
  assert (E : qs = shuffled sh used) by now apply mount_questions_rows.
  assert (P : qs ≡ₚ fmap (withShuffledAnswers sh) used).
  { rewrite E. apply shuffleQuestions_perm. }
  assert (Pid : fmap question_id qs ≡ₚ fmap row_id used).
  { rewrite P, <- list_fmap_compose. reflexivity. }
  split; [exact Pid|]. split.
  - intros q Hq. rewrite P in Hq.
    apply list_elem_of_fmap in Hq as (r & -> & Hr).
    exists r. split; [exact Hr|]. split; [reflexivity|].
    apply shuffleAnswers_perm.
  - intros Hnd. rewrite Pid. unfold used.
    rewrite <- (take_drop (questionLimit mode) rows), fmap_app in Hnd.
    now apply NoDup_app in Hnd as [Hnd _].
Qed.

Lemma loaded_questions_are_the_first_rows_witness :
  let qs := questions (mount practice reverseShuffle (Backend (Some samplePool))
                         (Some "exam-1")).1 in
  fmap question_id qs
  ≡ₚ ["q01"; "q02"; "q03"; "q04"; "q05"; "q06"; "q07"; "q08"; "q09"; "q10"].
Proof.
  intros qs.
  exact (proj1 (loaded_questions_are_the_first_rows practice reverseShuffle
                  (Backend (Some samplePool)) samplePool (Some "exam-1")
                  (or_intror eq_refl))).
Defined.

(** X5.  The shuffle does not change which answer counts as correct when a
    row flags exactly one answer ([correctAnswer] is that answer) or none
    (there is no correct answer). *)
Theorem correct_answer_survives_shuffle (sh : Shuffler) (r : QuestionRow)
  (flagged : list Answer) :
  List.filter is_correct (default [] (row_answers r)) = flagged ->
  (length flagged <= 1)%nat ->
  correctAnswer (withShuffledAnswers sh r) = head flagged.
Proof.
  intros <- Hlen. unfold correctAnswer. rewrite find_filter. simpl.
  pose proof (filter_perm is_correct _ _
                (shuffleAnswers_perm sh (row_id r) (default [] (row_answers r))))
    as P.
  destruct (List.filter is_correct (default [] (row_answers r)))
    as [|a [|b l]] eqn:F.
  - apply Permutation_nil_r in P. now rewrite P.
  - apply Permutation_singleton_r in P. now rewrite P.
  - simpl in Hlen. lia.
Qed.

Lemma correct_answer_survives_shuffle_witness :
  correctAnswer (withShuffledAnswers reverseShuffle (sampleRow "q01"))
  = Some (mkAnswer "q01-b" true).
Proof.
  apply (correct_answer_survives_shuffle reverseShuffle (sampleRow "q01")
           [mkAnswer "q01-b" true]); [reflexivity|simpl; lia].
Defined.

(** With two flagged answers the answer that counts depends on the order the
    shuffle produces. *)
Example two_flagged_answers_depend_on_shuffle :
  let r := mkRow "q" (Some [mkAnswer "a" true; mkAnswer "b" true]) in
  correctAnswer (withShuffledAnswers reverseShuffle r) = Some (mkAnswer "b" true)
  /\ correctAnswer {| question_id := "q"; answers := default [] (row_answers r) |}
     = Some (mkAnswer "a" true).
Proof. split; reflexivity. Qed.

(** ** A session without questions *)

Lemma step_stuck (mode : ExamMode) (demo : bool) (s : session) (ev : event) :
  mode ≠ learning -> stuck s -> stuck (step mode demo s ev).
Proof.
  intros Hm (Q & A & F & L).
  assert (C : currentQuestion (component s) = None).
  { unfold currentQuestion. rewrite Q. apply lookup_nil. }
  assert (S : saveUnlessLearning mode demo (component s) = None).
  { unfold saveUnlessLearning, saveResponse. rewrite C.
    destruct (decide (mode = learning)); [contradiction|reflexivity]. }
  split; [now rewrite step_questions|]. split.
  { destruct (step_answers mode demo s ev)
      as [->|(a & q & _ & _ & Hq & _)]; [exact A|].
    rewrite Q in Hq. now apply elem_of_nil in Hq. }
  destruct (step_cases mode demo s ev)
    as [->|[(st' & _ & ->)|[(_ & _ & ->)|[(_ & _ & _ & ->)|[(_ & ->)
       |(ok & _ & ->)]]]]]; simpl.
  - auto.
  - rewrite app_nil_r. auto.
  - unfold handleNextQuestion. rewrite S. simpl. rewrite app_nil_r. auto.
  - unfold timerCallback, handleSubmitExam. rewrite S.
    destruct (_ <=? _)%nat; simpl; rewrite ?app_nil_r; [|auto].
    split; [exact F|]. apply Forall_app. split; [exact L|].
    apply Forall_cons_2; [reflexivity|apply Forall_nil_2].
  - auto.
  - unfold settle. rewrite F. auto.
Qed.

(** X6.  When the question query fails, the session starts all the same
    with an empty question sequence, after an error toast.  In practice and
    mock-test mode such a session can never be finalised: whatever happens,
    the log holds nothing but the error toasts of failed submissions (the
    countdown's submission fails on the missing current question).  In
    learning mode Finish is available at once and finalises the exam with
    the score NaN and the pass flag down. *)
Theorem failed_load_session (mode : ExamMode) (sh : Shuffler)
  (newId : option string) (evs : list event) :
  let m := mount mode sh (Backend None) newId in
  questions m.1 = []
  /\ loading m.1 = false
  /\ ToastError "Failed to load questions" ∈ m.2
  /\ (mode ≠ learning ->
      Forall (fun e => e = ToastError "Failed to submit exam")
        (log (run mode false (start m.1) evs)))
  /\ (mode = learning ->
      log (step mode false (start m.1) ClickNext)
      = [UpdateExam (default "" newId) S754_nan false]).
Proof.
  intros m.
  assert (Q : questions m.1 = []) by (unfold m, mount; now destruct newId).
  split; [exact Q|].
  split; [unfold m, mount; now destruct newId|].
  split; [unfold m, mount; destruct newId; simpl; apply list_elem_of_here|].
  split.
  - intros Hm.
    assert (Z : stuck (run mode false (start m.1) evs)).
    { induction evs as [|ev evs IH] using rev_ind.
      - split; [exact Q|]. split; [apply mount_answers|].
        split; [reflexivity|apply Forall_nil_2].
      - rewrite run_snoc. now apply step_stuck. }
    apply Z.
  - intros ->. unfold m, mount. destruct newId; reflexivity.
Qed.

(** ** The pass mark in terms of correct answers *)

Lemma JS_eqb_refl (x : JS.number) : JS.eqb x x = true.
Proof.
  destruct x as [s|s| |s m e]; simpl; try reflexivity;
    try (now destruct s).
  rewrite Pos.eqb_refl, Z.eqb_refl. now destruct s.
Qed.

Lemma percentage_marks (c n : nat) :
  (1 <= n)%nat -> (n <= 20)%nat -> (c <= n)%nat ->
  passed (percentage c n) = (7 * n <=? 10 * c)%nat
  /\ JS.eqb (percentage c n) (JS.of_Z 100) = (c =? n)%nat
  /\ JS.eqb (percentage c n) (JS.of_Z 0) = (c =? 0)%nat.
Proof.
  intros H1 H20 Hc.
  assert (T : triangle 20
            (fun c n => (n =? 0)%nat ||
               (Bool.eqb (passed (percentage c n)) (7 * n <=? 10 * c)%nat
                && Bool.eqb (JS.eqb (percentage c n) (JS.of_Z 100)) (c =? n)%nat
                && Bool.eqb (JS.eqb (percentage c n) (JS.of_Z 0)) (c =? 0)%nat))
            = true)
    by (vm_compute; reflexivity).
  pose proof (triangle_spec _ _ T c n Hc H20) as E. simpl in E.
  apply orb_true_iff in E as [E|E]; [apply Nat.eqb_eq in E; lia|].
  apply andb_true_iff in E as [E E3]. apply andb_true_iff in E as [E1 E2].
  apply Bool.eqb_prop in E1, E2, E3. auto.
Qed.

(** X7.  In a session with at least one question the rounding of the score
    never decides the outcome: the exam is passed exactly when at least 70%
    of the questions are counted correct ([7 * total <= 10 * correctCount]:
    7 of 10, 14 of 20), the score is 100 exactly when every question is
    counted correct, and 0 exactly when none is. *)
Theorem pass_mark_in_correct_answers (mode : ExamMode) (sh : Shuffler)
  (src : DataSource) (newId : option string) (evs : list event) :
  let st := component (run mode (demoMode src)
                         (start (mount mode sh src newId).1) evs) in
  let c := correctCount (questions st) (selectedAnswers st) in
  let n := length (questions st) in
  questions st ≠ [] ->
  (passed (score (questions st) (selectedAnswers st)) = true
   <-> (7 * n <= 10 * c)%nat)
  /\ (score (questions st) (selectedAnswers st) = JS.of_Z 100 <-> c = n)
  /\ (score (questions st) (selectedAnswers st) = JS.of_Z 0 <-> c = 0%nat).
Proof.
  intros st c n Hne.
  assert (Hlen : (n <= 20)%nat).
  { unfold n, st. rewrite run_questions. simpl.
    etransitivity; [apply mount_length_le|apply questionLimit_le]. }
  assert (H1 : (1 <= n)%nat).
  { unfold n. destruct (questions st); [done|simpl; lia]. }
  pose proof (correctCount_le (questions st) (selectedAnswers st)) as Hc.
  destruct (percentage_marks c n H1 Hlen Hc) as (P & E100 & E0).
  unfold score. fold c n. split; [|split].
  - rewrite P. apply Nat.leb_le.
  - split.
    + intros E. rewrite E, JS_eqb_refl in E100. symmetry in E100.
      now apply Nat.eqb_eq in E100.
    + intros E. apply JS_eqb_eq. rewrite E100. now apply Nat.eqb_eq.
  - split.
    + intros E. rewrite E, JS_eqb_refl in E0. symmetry in E0.
      now apply Nat.eqb_eq in E0.
    + intros E. apply JS_eqb_eq. rewrite E0. now apply Nat.eqb_eq.
Qed.

Lemma pass_mark_in_correct_answers_witness :
  let st := component (run practice false (sampleSession practice)
              (answerAll ["q10-b"; "q09-b"; "q08-b"; "q07-b"; "q06-b"; "q05-b";
                          "q04-a"; "q03-a"; "q02-a"] ++ [ClickAnswer "q01-c"])) in
  questions st ≠ []
  /\ passed (score (questions st) (selectedAnswers st)) = false.
Proof.
  intros st.
  assert (Hne : questions st ≠ []) by (vm_compute; discriminate).
  split; [exact Hne|].
  destruct (pass_mark_in_correct_answers practice reverseShuffle
              (Backend (Some samplePool)) (Some "exam-1") _ Hne) as (P & _).
  apply not_true_is_false. intros H. apply P in H.
  vm_compute in H. lia.
Defined.

(** ** The countdown *)

Lemma step_mounted (mode : ExamMode) (demo : bool) (s : session) (ev : event) :
  mounted (step mode demo s ev) = true -> mounted s = true.
Proof.
  destruct (step_cases mode demo s ev)
    as [->|[(st' & _ & ->)|[(_ & M & _)|[(_ & M & _)|[(_ & ->)
       |(ok & _ & ->)]]]]]; simpl; auto; try discriminate.
  unfold settle. destruct (inflight s) as [|[id sc] rest]; [auto|].
  destruct ok; simpl; [discriminate|auto].
Qed.

Lemma handleNextQuestion_timeLeft (mode : ExamMode) (demo : bool) (st : state) :
  timeLeft (handleNextQuestion mode demo st).1.1 = timeLeft st.
Proof.
  unfold handleNextQuestion.
  destruct (saveUnlessLearning mode demo st); [|reflexivity].
  destruct (_ <? _)%Z; [reflexivity|].
  now destruct (handleSubmitExam mode demo st).
Qed.

(** While the component is mounted a tick of a mock test takes one second
    off (at zero there is nothing to take), and nothing else touches the
    countdown. *)
Lemma step_timeLeft (mode : ExamMode) (demo : bool) (s : session) (ev : event) :
  mounted s = true ->
  timeLeft (component (step mode demo s ev))
  = if isTick ev && bool_decide (mode = mock_test)
    then (timeLeft (component s) - 1)%nat
    else timeLeft (component s).
Proof.
  intros M. destruct ev as [a| | | | |ok]; simpl; rewrite ?M; simpl.
  - destruct (answerEnabled mode a (component s)); [|reflexivity].
    destruct (handleAnswerSelect mode a (component s)) as [st'|] eqn:H;
      [|reflexivity].
    now apply handleAnswerSelect_frame in H.
  - destruct (nextEnabled mode (component s)); [|reflexivity].
    pose proof (handleNextQuestion_timeLeft mode demo (component s)) as H.
    now destruct (handleNextQuestion mode demo (component s)) as [[st' e] sub].
  - destruct (previousEnabled (component s)); [|reflexivity].
    simpl. unfold handlePreviousQuestion. now destruct (_ <? _)%nat.
  - now destruct (negb (loading (component s))).
  - unfold timerRunning, timerCallback.
    destruct (bool_decide (mode = mock_test)); simpl; [|reflexivity].
    destruct (0 <? timeLeft (component s))%nat eqn:P.
    + destruct (timeLeft (component s) <=? 1)%nat eqn:L.
      * destruct (handleSubmitExam mode demo (component s)). simpl.
        apply Nat.leb_le in L. lia.
      * reflexivity.
    + apply Nat.ltb_ge in P. lia.
  - unfold settle. destruct (inflight s) as [|[id sc] rest]; [reflexivity|].
    now destruct ok.
Qed.

Lemma mount_timeLeft (mode : ExamMode) (sh : Shuffler) (src : DataSource)
  (newId : option string) :
  timeLeft (mount mode sh src newId).1
  = if decide (mode = mock_test) then 1200%nat else 0%nat.
Proof.
  unfold mount. destruct src as [rows|[rows|]], newId; simpl;
    now destruct (decide (mode = mock_test)).
Qed.

(** X8.  As long as the component is mounted, the countdown of a mock test
    shows 1200 seconds less one per tick received, stopping at zero; in the
    other modes it stays at zero.  No click changes it. *)
Theorem countdown_counts_ticks (mode : ExamMode) (sh : Shuffler)
  (src : DataSource) (newId : option string) (evs : list event) :
  let s := run mode (demoMode src) (start (mount mode sh src newId).1) evs in
  mounted s = true ->
  timeLeft (component s)
  = if decide (mode = mock_test) then (1200 - ticks evs)%nat else 0%nat.
Proof.
  simpl. induction evs as [|ev evs IH] using rev_ind; intros M.
  - simpl. rewrite mount_timeLeft. destruct (decide (mode = mock_test)); reflexivity.
  - rewrite run_snoc in M |- *.
    pose proof (step_mounted _ _ _ _ M) as M'.
    rewrite (step_timeLeft _ _ _ _ M'), (IH M').
    unfold ticks. rewrite List.filter_app, length_app. simpl.
    destruct (decide (mode = mock_test)) as [E|E].
    + rewrite (bool_decide_eq_true_2 _ E), andb_true_r.
      destruct (isTick ev); simpl; lia.
    + rewrite (bool_decide_eq_false_2 _ E), andb_false_r. reflexivity.
Qed.

Lemma countdown_counts_ticks_witness :
  let s := run mock_test false (sampleSession mock_test)
             ([Tick; Tick; ClickAnswer "q13-a"; Tick; ClickNext; Tick]) in
  mounted s = true /\ timeLeft (component s) = 1196%nat.
Proof.
  intros s.
  assert (M : mounted s = true) by (vm_compute; reflexivity).
  split; [exact M|].
  exact (countdown_counts_ticks mock_test reverseShuffle
           (Backend (Some samplePool)) (Some "exam-1")
           [Tick; Tick; ClickAnswer "q13-a"; Tick; ClickNext; Tick] M).
Defined.






(** ** Response records and the scorer *)



(** X11.  Finish on an answered last question, outside learning mode and
    with a backend, sends the response record of that question twice (once
    from [handleNextQuestion], once from the [handleSubmitExam] it calls)
    and then the update of the exam row with the score and the flag; the
    pointer and the answers stay as they are and the submission is left
    awaiting the update. *)
Theorem finish_saves_the_last_response_twice (mode : ExamMode) (st : state)
  (q : Question) (a : string) :
  mode ≠ learning ->
  currentQuestion st = Some q ->
  (currentQuestionIndex st + 1 = length (questions st))%nat ->
  selectedAnswers st !! question_id q = Some a ->
  a ≠ "" ->
  let sc := score (questions st) (selectedAnswers st) in
  handleNextQuestion mode false st
  = (st,
     [responseRecord st q a; responseRecord st q a;
      UpdateExam (examId st) sc (passed sc)],
     Awaiting (examId st) sc).
Proof.
  intros Hm Hq Hlast Ha Hne sc.
  unfold handleNextQuestion, handleSubmitExam, saveUnlessLearning.
  destruct (decide (mode = learning)); [contradiction|].
  rewrite (saveResponse_savedFor false st q Hq). unfold savedFor.
  rewrite Ha. unfold truthy. rewrite (bool_decide_eq_true_2 _ Hne). simpl.
  destruct (_ <? _)%Z eqn:C; [apply Z.ltb_lt in C; lia|reflexivity].
Qed.

Lemma finish_saves_the_last_response_twice_witness :
  let st := component (run practice false (sampleSession practice)
              (answerAll ["q10-b"; "q09-b"; "q08-b"; "q07-b"; "q06-b"; "q05-b";
                          "q04-a"; "q03-a"; "q02-a"] ++ [ClickAnswer "q01-b"])) in
  (handleNextQuestion practice false st).1.2
  = [InsertResponse "exam-1" "q01" "q01-b" true;
     InsertResponse "exam-1" "q01" "q01-b" true;
     UpdateExam "exam-1" (JS.of_Z 70) true].
Proof.
  intros st.
  assert (Hm : practice ≠ learning) by discriminate.
  assert (Hq : currentQuestion st
               = Some (mkQuestion "q01" [mkAnswer "q01-c" false;
                                         mkAnswer "q01-b" true;
                                         mkAnswer "q01-a" false]))
    by (vm_compute; reflexivity).
  assert (Hl : (currentQuestionIndex st + 1 = length (questions st))%nat)
    by (vm_compute; reflexivity).
  assert (Ha : selectedAnswers st !! "q01" = Some "q01-b")
    by (vm_compute; reflexivity).
  assert (Hne : "q01-b" ≠ "") by discriminate.
  rewrite (finish_saves_the_last_response_twice practice st _ "q01-b"
             Hm Hq Hl Ha Hne).
  vm_compute. reflexivity.
Defined.

(** ** The clock *)

Lemma formatTime_table (t : nat) :
  (t < 60 * 100)%nat ->
  formatTime t
  = Some (String.append (twoDigits (t / 60))
            (String.append ":" (twoDigits (t mod 60))))
  /\ (formatTime t ≫= readClock) = Some t.
Proof.
  intros Ht.
  assert (T : forallb (fun t =>
                match formatTime t with
                | Some s =>
                    String.eqb s (String.append (twoDigits (t / 60))
                                    (String.append ":" (twoDigits (t mod 60))))
                    && match readClock s with
                       | Some t' => (t' =? t)%nat
                       | None => false
                       end
                | None => false
                end) (seq 0 (60 * 100)) = true)
    by (vm_compute; reflexivity).
  rewrite forallb_forall in T.
  assert (Hin : In t (seq 0 (60 * 100))) by (apply in_seq; lia).
  specialize (T t Hin).
  destruct (formatTime t) as [s|]; [|discriminate].
  apply andb_true_iff in T as [T1 T2].
  apply String.eqb_eq in T1. split; [now rewrite T1|].
  simpl. destruct (readClock s) as [t'|]; [|discriminate].
  apply Nat.eqb_eq in T2. now rewrite T2.
Qed.

(** X12.  For every number of seconds below 100 minutes, hence for every
    value of the countdown, [formatTime] shows the minutes and the seconds
    as two decimal digits each, separated by a colon: five characters, from
    which the number of seconds can be read back, so that different values
    are shown differently. *)
Theorem clock_shows_minutes_and_seconds (t t' : nat) :
  (t < 60 * 100)%nat -> (t' < 60 * 100)%nat ->
  formatTime t
  = Some (String.append (twoDigits (t / 60))
            (String.append ":" (twoDigits (t mod 60))))
  /\ (formatTime t ≫= readClock) = Some t
  /\ (exists s, formatTime t = Some s /\ String.length s = 5%nat)
  /\ (formatTime t = formatTime t' -> t = t').
Proof.
  intros Ht Ht'.
  destruct (formatTime_table t Ht) as [E R].
  destruct (formatTime_table t' Ht') as [_ R'].
  split; [exact E|]. split; [exact R|]. split.
  - eexists. split; [exact E|]. reflexivity.
  - intros H. rewrite H in R. congruence.
Qed.

Lemma clock_shows_minutes_and_seconds_witness :
  formatTime 1200 = Some "20:00" /\ formatTime 59 = Some "00:59".
Proof.
  assert (H1 : (1200 < 60 * 100)%nat) by lia.
  assert (H2 : (59 < 60 * 100)%nat) by lia.
  split.
  - etransitivity;
      [exact (proj1 (clock_shows_minutes_and_seconds 1200 59 H1 H2))|].
    reflexivity.
  - etransitivity;
      [exact (proj1 (clock_shows_minutes_and_seconds 59 1200 H2 H1))|].
    reflexivity.
Defined.

(** From 100 minutes on the minutes take three digits. *)
Example formatTime_100_minutes : formatTime (60 * 100) = Some "100:00".
Proof. vm_compute. reflexivity. Qed.

(** ** The exam row, the results view and the shell *)

(** X13.  With a backend, the [total_questions] stored with the exam is the
    nominal count of the mode (10, or 20 for a mock test), while the session
    holds as many questions as the source delivers up to that count: the
    loaded sequence is never longer than the stored total and has that
    length exactly when the source holds at least that many rows. *)
Theorem stored_total_is_nominal (mode : ExamMode) (sh : Shuffler)
  (rows : list QuestionRow) (newId userId : option string) :
  let loaded := length (questions (mount mode sh (Backend (Some rows)) newId).1) in
  let total := total_questions (examInsert userId mode) in
  total = match mode with mock_test => 20%nat | practice | learning => 10%nat end
  /\ loaded = Nat.min total (length rows)
  /\ (loaded <= total)%nat
  /\ (loaded = total <-> (total <= length rows)%nat).
Proof.
  intros loaded total.
  assert (E : loaded = Nat.min total (length rows)).
  { unfold loaded. rewrite mount_questions, fetchQuestions_length. reflexivity. }
  split; [now destruct mode|]. split; [exact E|]. lia.
Qed.

(** A mock test over thirteen rows: thirteen questions, a stored total of
    twenty. *)
Example thirteen_of_twenty :
  length (questions (component (sampleSession mock_test))) = 13%nat
  /\ total_questions (examInsert None mock_test) = 20%nat.
Proof. split; reflexivity. Qed.

Lemma storedResponses_length (id : string) (l : list effect) :
  Forall (carries id) l ->
  totalQuestions (storedResponses id l) = count isInsert l.
Proof.
  unfold totalQuestions, count.
  induction 1 as [|e l He _ IH]; simpl; [reflexivity|].
  rewrite length_app, IH.
  destruct e as [id' q a c| | | |]; simpl; try reflexivity.
  destruct He as [He|He]; [discriminate|]. injection He as ->.
  now rewrite bool_decide_eq_true_2.
Qed.

Lemma storedResponses_none (id : string) (l : list effect) :
  Forall (fun e => isInsert e = false) l -> storedResponses id l = [].
Proof.
  induction 1 as [|e l He _ IH]; simpl; [reflexivity|].
  rewrite IH. destruct e; simpl in *; try reflexivity. discriminate.
Qed.

Lemma correctAnswers_le (rs : list ExamResponse) :
  (correctAnswers rs <= totalQuestions rs)%nat.
Proof.
  unfold correctAnswers, totalQuestions.
  induction rs as [|r rs IH]; simpl; [lia|].
  destruct (default false (response_is_correct r)); simpl; lia.
Qed.

Lemma mount_oneExam (mode : ExamMode) (sh : Shuffler) (src : DataSource)
  (newId : option string) (evs : list event) :
  oneExam (default "" newId)
    (run mode (demoMode src) (start (mount mode sh src newId).1) evs).
Proof.
  induction evs as [|ev evs IH] using rev_ind.
  - split; [apply mount_examId|]. split; constructor.
  - rewrite run_snoc. now apply step_oneExam.
Qed.

(** X14.  The response rows the results view reads for a session's exam
    (with a backend, provided every insert is stored; without one the view
    shows sample rows instead) are one per insert the session issued: the
    view's "total" is the number of inserts, not the number of questions,
    and the number it shows as correct never exceeds it.  For a session in
    learning mode there is no row: the view shows 0 out of 0, whatever the
    score. *)
Theorem results_view_counts_inserts (mode : ExamMode) (sh : Shuffler)
  (src : DataSource) (newId : option string) (evs : list event) :
  let s := run mode (demoMode src) (start (mount mode sh src newId).1) evs in
  let responses := storedResponses (default "" newId) (log s) in
  totalQuestions responses = count isInsert (log s)
  /\ (correctAnswers responses <= totalQuestions responses)%nat
  /\ (mode = learning ->
      responses = [] /\ totalQuestions responses = 0%nat
      /\ correctAnswers responses = 0%nat).
Proof.
  intros s responses.
  split; [apply storedResponses_length, mount_oneExam|].
  split; [apply correctAnswers_le|].
  intros ->.
  assert (E : responses = []).
  { apply storedResponses_none, run_learning. constructor. }
  rewrite E. auto.
Qed.



(** ** The question form *)




Lemma updateAnswer_length (index : nat) (fv : QuestionModal.AnswerField)
  (prev : QuestionModal.FormData) :
  length (QuestionModal.answers (QuestionModal.updateAnswer index fv prev))
  = length (QuestionModal.answers prev).
Proof. simpl. apply length_imap. Qed.







(** ** The statistics of the dashboard *)







(** ** The progress bar *)


